(** * Asset-transfer chaincode: the access-controlled contract and the
    events/private-data contract, embedded over an explicit ledger state.

    Every transaction function of the source is an [async] method that talks
    to the ledger through [ctx.stub]; here it is a computation in a small
    state-and-exception monad over the ledger.  A [throw] keeps the ledger as
    it was at the point of the throw, so a theorem of the form "fails and the
    state is unchanged" says that nothing had been written before the throw. *)

From Stdlib Require Import ZArith String Ascii List DecimalString.
From stdpp Require Import base option list gmap strings sorting.

Set Warnings "-register-all".
Open Scope string_scope.

(** ** JavaScript values that the contracts handle *)

(** What [JSON.parse] can return, and what [JSON.stringify] prints.  The
    numbers of an Asset ([Size], [AppraisedValue]) are integers, taken in
    the range where a JavaScript number holds an integer exactly and prints
    it in plain decimal. *)
Inductive json : Type :=
  | JNull
  | JBool (b : bool)
  | JNum (n : Z)
  | JStr (s : string)
  | JArr (items : list json)
  | JObj (fields : list (string * json)).

(** What a [throw] or a failing builtin raises.  The source throws plain
    [Error] objects that differ by their message only. *)
Inductive exn : Type :=
  | Error (message : string)
  | TypeError
  | SyntaxError
  | InvalidCharacterError.

Definition Unauthorized : exn := Error "Client not autorized, set abac.creator=true".
Definition AlreadyExists (id : string) : exn := Error ("The asset " ++ id ++ " already exists").
Definition NotFound (id : string) : exn := Error ("The asset " ++ id ++ " does not exist").
Definition IdentityResolutionError : exn := Error "failed to retrieve Client ID".
Definition InvalidKey : exn := Error "key must be a valid string".

Inductive outcome (A : Type) : Type :=
  | Ok (a : A)
  | Throw (e : exn).
Arguments Ok {A} a.
Arguments Throw {A} e.

(** An [async] function that is called without [await] hands back its
    promise.  None of the source's unawaited functions awaits anything
    itself, so the promise is already settled when the caller gets it. *)
Inductive promise (A : Type) : Type :=
  | Fulfilled (a : A)
  | Rejected (e : exn).
Arguments Fulfilled {A} a.
Arguments Rejected {A} e.

(** The right-hand sides of an object literal: JSON data, or a promise. *)
Inductive value : Type :=
  | Json (j : json)
  | Promise (p : promise string)
  | Object (fields : list (string * value)).

(** ** JSON.stringify *)

Definition dquote : ascii := "034"%char.
Definition backslash : ascii := "092"%char.

Definition hex_digit (n : N) : ascii :=
  match n with
  | 0 => "0" | 1 => "1" | 2 => "2" | 3 => "3" | 4 => "4" | 5 => "5" | 6 => "6"
  | 7 => "7" | 8 => "8" | 9 => "9" | 10 => "a" | 11 => "b" | 12 => "c"
  | 13 => "d" | 14 => "e" | _ => "f"
  end%N%char.

(** One character of a string literal: the quote and the backslash are
    escaped, control characters get their short escape or a [\u00XX]. *)
Definition escape_char (c : ascii) : string :=
  let n := N_of_ascii c in
  if (n =? 34)%N then String backslash (String dquote EmptyString)
  else if (n =? 92)%N then String backslash (String backslash EmptyString)
  else if (n =? 8)%N then String backslash "b"
  else if (n =? 9)%N then String backslash "t"
  else if (n =? 10)%N then String backslash "n"
  else if (n =? 12)%N then String backslash "f"
  else if (n =? 13)%N then String backslash "r"
  else if (n <? 32)%N then
    String backslash ("u00" ++
      String (hex_digit (n / 16)) (String (hex_digit (n mod 16)) EmptyString))
  else String c EmptyString.

Fixpoint escape (s : string) : string :=
  match s with
  | EmptyString => EmptyString
  | String c rest => escape_char c ++ escape rest
  end.

Definition quote (s : string) : string :=
  String dquote (escape s ++ String dquote EmptyString).

Definition number_to_string (n : Z) : string :=
  NilZero.string_of_int (Z.to_int n).

Fixpoint join (sep : string) (parts : list string) : string :=
  match parts with
  | [] => EmptyString
  | [p] => p
  | p :: rest => p ++ sep ++ join sep rest
  end.

Fixpoint JSON_stringify (j : json) : string :=
  match j with
  | JNull => "null"
  | JBool true => "true"
  | JBool false => "false"
  | JNum n => number_to_string n
  | JStr s => quote s
  | JArr items => "[" ++ join "," (map JSON_stringify items) ++ "]"
  | JObj fields =>
      "{" ++ join "," (map (fun kv => quote (fst kv) ++ ":" ++ JSON_stringify (snd kv)) fields) ++ "}"
  end.

(** What [JSON.stringify] sees of a run-time value: a promise has no
    enumerable property of its own and prints as the empty object. *)
Fixpoint to_json (v : value) : json :=
  match v with
  | Json j => j
  | Promise _ => JObj []
  | Object fields => JObj (map (fun kv => (fst kv, to_json (snd kv))) fields)
  end.

Definition JSON_stringify_value (v : value) : string := JSON_stringify (to_json v).

(** ** Members of a parsed value *)

Fixpoint assoc (name : string) (fields : list (string * json)) : option json :=
  match fields with
  | [] => None
  | (k, v) :: rest => if String.eqb k name then Some v else assoc name rest
  end.

(** [asset.name] for the member names the contracts read ([ID], [getOwner]),
    none of which is on a prototype: [None] is [undefined]; reading a member
    of [null] throws. *)
Definition get_member (asset : json) (name : string) : outcome (option json) :=
  match asset with
  | JNull => Throw TypeError
  | JObj fields => Ok (assoc name fields)
  | _ => Ok None
  end.

(** [asset.name()]: the member is read and then called.  Whatever
    [JSON.parse] built is data, and [undefined] is not callable either, so
    the call throws once the member has been read. *)
Definition call_member (asset : json) (name : string) : outcome json :=
  match get_member asset name with
  | Throw e => Throw e
  | Ok _ => Throw TypeError
  end.

Fixpoint set_field (name : string) (v : json) (fields : list (string * json)) : list (string * json) :=
  match fields with
  | [] => [(name, v)]
  | (k, old) :: rest =>
      if String.eqb k name then (k, v) :: rest else (k, old) :: set_field name v rest
  end.

(** [asset.name = v] in strict mode (both files are modules): an own
    property is replaced in place or appended; a named property put on an
    array is not part of what [JSON.stringify] prints; [null] and the
    primitives throw. *)
Definition set_member (asset : json) (name : string) (v : json) : outcome json :=
  match asset with
  | JObj fields => Ok (JObj (set_field name v fields))
  | JArr items => Ok (JArr items)
  | _ => Throw TypeError
  end.

(** [clientID != owner] with a promise on the left: an object is loosely
    equal to a string only when its [toString()] is that string, and to
    nothing else that [JSON.parse] can build. *)
Definition promise_loose_neq (clientID : promise string) (owner : json) : bool :=
  match owner with
  | JStr s => negb (String.eqb s "[object Promise]")
  | _ => true
  end.

(** ** The ledger and the transaction context *)

(** Modelled from the spec: the World State Accessor, the Private Data Store
    and the Event Sink of section 6 are services of the ledger host.
    [world] is the key-value world state, [private] the private-data
    collections keyed by collection name and key, [event] the event attached
    to the current unit of work. *)
Record Ledger : Type := mkLedger {
  world : gmap string string;
  private : gmap (string * string) string;
  event : option (string * string)
}.

(** Modelled from the spec: the Client Identity Provider of section 6.
    [attrs] are the attributes of the caller's certificate, [b64ID] is what
    [getID()] returns ([None] for [null]), [clientMSPID] and [peerMSPID] the
    organisations of the caller and of the executing peer, [transient] the
    transient map of the proposal. *)
Record Context : Type := mkContext {
  attrs : gmap string string;
  b64ID : option string;
  clientMSPID : string;
  peerMSPID : string;
  transient : gmap string string
}.

(** The state-and-exception monad of a transaction function. *)
Definition M (A : Type) : Type := Ledger -> outcome A * Ledger.

Definition ret {A} (a : A) : M A := fun l => (Ok a, l).
Definition throw {A} (e : exn) : M A := fun l => (Throw e, l).
Definition bind {A B} (m : M A) (k : A -> M B) : M B :=
  fun l => match m l with
           | (Ok a, l') => k a l'
           | (Throw e, l') => (Throw e, l')
           end.
Definition lift {A} (o : outcome A) : M A := fun l => (o, l).

Notation "x <- m ;; k" := (bind m (fun x => k))
  (at level 100, m at next level, right associativity).
Notation "m ;;; k" := (bind m (fun _ => k))
  (at level 100, right associativity).

(** Modelled from the spec: [get(key)] yields the bytes stored under the key;
    for an absent key the shim delivers an empty buffer, which is why the
    source tests [length]. *)
Definition getState (key : string) : M string :=
  fun l => (Ok (default EmptyString (world l !! key)), l).

Definition putState (key value : string) : M unit :=
  fun l => (Ok tt, mkLedger (<[key := value]> (world l)) (private l) (event l)).

Definition deleteState (key : string) : M unit :=
  fun l => (Ok tt, mkLedger (delete key (world l)) (private l) (event l)).

Definition key_le (a b : string * string) : Prop := String.leb (fst a) (fst b) = true.

#[local] Instance key_le_dec a b : Decision (key_le a b).
Proof. unfold key_le. apply _. Defined.

(** Modelled from the spec: [scan('', '')] yields every key of the namespace
    with its bytes, in the store's key order. *)
Definition getStateByRange (l : Ledger) : list (string * string) :=
  merge_sort key_le (map_to_list (world l)).

Definition getPrivateData (collection key : string) : M string :=
  fun l => (Ok (default EmptyString (private l !! (collection, key))), l).

Definition putPrivateData (collection key value : string) : M unit :=
  fun l => (Ok tt, mkLedger (world l) (<[(collection, key) := value]> (private l)) (event l)).

Definition deletePrivateData (collection key : string) : M unit :=
  fun l => (Ok tt, mkLedger (world l) (delete (collection, key) (private l)) (event l)).

Definition setEvent (name payload : string) : M unit :=
  fun l => (Ok tt, mkLedger (world l) (private l) (Some (name, payload))).

(** Modelled from the spec: [hasAttribute(name, expectedValue)]. *)
Definition assertAttributeValue (ctx : Context) (name expected : string) : bool :=
  bool_decide (attrs ctx !! name = Some expected).

(** [!buffer || buffer.length === 0]: a buffer is an object, hence truthy,
    and the test comes down to its length. *)
Definition is_empty (buffer : string) : bool := Nat.eqb (String.length buffer) 0.

(** ** The access-controlled contract ([AssetTransferContract], and its
    JavaScript twin [AssetContract], which has the same body line by line) *)

Module AssetTransferContract.
Section Contract.

(** [JSON.parse] ([None]: it throws a [SyntaxError]) and [atob] ([None]:
    it throws) are builtins of the language; the contract is embedded
    over any implementation of them. *)
Context (JSON_parse : string -> option json).
Context (atob : string -> option string).

Definition parse (text : string) : M json :=
  match JSON_parse text with
  | Some j => ret j
  | None => throw SyntaxError
  end.

(** An [async] function without an [await] inside: the body runs to its
    end at the call, and what it returns or throws settles the promise. *)
Definition GetSubmittingClientIdentity (ctx : Context) : promise string :=
  match b64ID ctx with
  | None => Rejected IdentityResolutionError
  | Some b64 =>
      match atob b64 with
      | None => Rejected InvalidCharacterError
      | Some decodeID => Fulfilled decodeID
      end
  end.

Definition AssetExists (ctx : Context) (id : string) : M bool :=
  assetJSON <- getState id ;;
  ret (negb (is_empty assetJSON)).

Definition ReadAsset (ctx : Context) (id : string) : M string :=
  assetJSON <- getState id ;;
  if is_empty assetJSON then throw (NotFound id)
  else ret assetJSON.

Definition CreateAsset (ctx : Context) (id color : string) (size appraisedValue : Z) : M unit :=
  let err := assertAttributeValue ctx "abac.creator" "true" in
  if negb err then throw Unauthorized
  else
    exists_ <- AssetExists ctx id ;;
    if (exists_ : bool) then throw (AlreadyExists id)
    else
      (* no [await]: [clientID] is the promise, not the string *)
      let clientID := GetSubmittingClientIdentity ctx in
      let asset := Object [
        ("ID", Json (JStr id));
        ("Color", Json (JStr color));
        ("Size", Json (JNum size));
        ("Owner", Promise clientID);
        ("AppraisedValue", Json (JNum appraisedValue)) ] in
      putState id (JSON_stringify_value asset).

Definition UpdateAsset (ctx : Context) (id color : string) (size appraisedValue : Z) : M unit :=
  exists_ <- AssetExists ctx id ;;
  if negb exists_ then throw (NotFound id)
  else
    let clientID := GetSubmittingClientIdentity ctx in
    assetString <- ReadAsset ctx id ;;
    asset <- parse assetString ;;
    owner <- lift (call_member asset "getOwner") ;;
    if promise_loose_neq clientID owner then throw Unauthorized
    else
      let updatedAsset := Object [
        ("ID", Json (JStr id));
        ("Color", Json (JStr color));
        ("Size", Json (JNum size));
        ("Owner", Promise clientID);
        ("AppraisedValue", Json (JNum appraisedValue)) ] in
      putState id (JSON_stringify_value updatedAsset).

Definition DeleteAsset (ctx : Context) (id : string) : M unit :=
  exists_ <- AssetExists ctx id ;;
  if negb exists_ then throw (NotFound id)
  else
    let clientID := GetSubmittingClientIdentity ctx in
    assetString <- ReadAsset ctx id ;;
    asset <- parse assetString ;;
    owner <- lift (call_member asset "getOwner") ;;
    if promise_loose_neq clientID owner then throw Unauthorized
    else deleteState id.

Definition TransferAsset (ctx : Context) (id newOwner : string) : M unit :=
  assetString <- ReadAsset ctx id ;;
  asset <- parse assetString ;;
  let clientID := GetSubmittingClientIdentity ctx in
  owner <- lift (call_member asset "getOwner") ;;
  if promise_loose_neq clientID owner then throw Unauthorized
  else
    asset' <- lift (set_member asset "Owner" (JStr newOwner)) ;;
    putState id (JSON_stringify asset').

(** The [while (!result.done)] loop over the iterator's results, with the
    array [allResults] that each turn pushes onto.  [strValue] is the
    payload as text. *)
Fixpoint GetAllAssets_loop (results : list (string * string)) (allResults : list json) : list json :=
  match results with
  | [] => allResults
  | (key, strValue) :: rest =>
      let record :=
        match JSON_parse strValue with
        | Some parsed => parsed
        | None => JStr strValue
        end in
      GetAllAssets_loop rest (allResults ++ [JObj [("Key", JStr key); ("Record", record)]])
  end.

Definition GetAllAssets (ctx : Context) : M string :=
  fun l =>
    let iterator := getStateByRange l in
    (Ok (JSON_stringify (JArr (GetAllAssets_loop iterator []))), l).

End Contract.
End AssetTransferContract.

(** ** The events and private-data contract ([AssetTransferEvents]) *)

Module AssetTransferEvents.
Section Contract.

Context (JSON_parse : string -> option json).

Definition parse (text : string) : M json :=
  match JSON_parse text with
  | Some j => ret j
  | None => throw SyntaxError
  end.

Definition collection_of (peerOrg : string) : string := "_implicit_org_" ++ peerOrg.

(** [if (transientMap)] holds for the map object that [getTransient]
    returns, and [if (properties)] holds exactly when the map has the key:
    its value is a buffer, an object. *)
Definition savePrivateData (ctx : Context) (assetKey : string) : M unit :=
  let clientOrg := clientMSPID ctx in
  let peerOrg := peerMSPID ctx in
  let collection := collection_of peerOrg in
  if String.eqb clientOrg peerOrg then
    match transient ctx !! "asset_properties" with
    | Some properties => putPrivateData collection assetKey properties
    | None => ret tt
    end
  else ret tt.

Definition removePrivateData (ctx : Context) (assetKey : string) : M unit :=
  let clientOrg := clientMSPID ctx in
  let peerOrg := peerMSPID ctx in
  let collection := collection_of peerOrg in
  if String.eqb clientOrg peerOrg then
    propertiesBuffer <- getPrivateData collection assetKey ;;
    if negb (is_empty propertiesBuffer) then deletePrivateData collection assetKey
    else ret tt
  else ret tt.

(** Modelled from the spec: [getPrivate(collection, key)] of the Private
    Data Store takes a string key, where the source passes [asset.ID],
    whatever the stored record holds there; a key that is not a non-empty
    string is refused. *)
Definition private_key (assetKey : option json) : M string :=
  match assetKey with
  | Some (JStr k) => if is_empty k then throw InvalidKey else ret k
  | _ => throw InvalidKey
  end.

(** Returns [asset] as the call leaves it. *)
Definition addPrivateData (ctx : Context) (assetKey : option json) (asset : json) : M json :=
  let clientOrg := clientMSPID ctx in
  let peerOrg := peerMSPID ctx in
  let collection := collection_of peerOrg in
  if String.eqb clientOrg peerOrg then
    key <- private_key assetKey ;;
    propertiesBuffer <- getPrivateData collection key ;;
    if negb (is_empty propertiesBuffer) then
      properties <- parse propertiesBuffer ;;
      lift (set_member asset "asset_properties" properties)
    else ret asset
  else ret asset.

Definition readState (ctx : Context) (id : string) : M json :=
  assetBuffer <- getState id ;;
  if is_empty assetBuffer then throw (NotFound id)
  else parse assetBuffer.

Definition CreateAsset (ctx : Context) (id color : string) (size : Z) (owner : string)
    (appraisedValue : Z) : M unit :=
  let asset := Object [
    ("ID", Json (JStr id));
    ("Color", Json (JStr color));
    ("Size", Json (JNum size));
    ("Owner", Json (JStr owner));
    ("AppraisedValue", Json (JNum appraisedValue)) ] in
  savePrivateData ctx id ;;;
  let assetBuffer := JSON_stringify_value asset in
  setEvent "CreateAsset" assetBuffer ;;;
  putState id assetBuffer.

Definition TransferAsset (ctx : Context) (id newOwner : string) : M unit :=
  asset <- readState ctx id ;;
  asset <- lift (set_member asset "Owner" (JStr newOwner)) ;;
  let assetBuffer := JSON_stringify asset in
  savePrivateData ctx id ;;;
  setEvent "TransferAsset" assetBuffer ;;;
  putState id assetBuffer.

(** The value of [asset] at the [return] of [ReadAsset]. *)
Definition ReadAsset_asset (ctx : Context) (id : string) : M json :=
  asset <- readState ctx id ;;
  assetID <- lift (get_member asset "ID") ;;
  addPrivateData ctx assetID asset.

Definition ReadAsset (ctx : Context) (id : string) : M string :=
  asset <- ReadAsset_asset ctx id ;;
  ret (JSON_stringify asset).

Definition UpdateAsset (ctx : Context) (id color : string) (size : Z) (owner : string)
    (appraisedValue : Z) : M unit :=
  asset <- readState ctx id ;;
  asset <- lift (set_member asset "Color" (JStr color)) ;;
  asset <- lift (set_member asset "Size" (JNum size)) ;;
  asset <- lift (set_member asset "Owner" (JStr owner)) ;;
  asset <- lift (set_member asset "AppraisedValue" (JNum appraisedValue)) ;;
  let assetBuffer := JSON_stringify asset in
  savePrivateData ctx id ;;;
  setEvent "UpdateAsset" assetBuffer ;;;
  putState id assetBuffer.

Definition DeleteAsset (ctx : Context) (assetId : string) : M unit :=
  asset <- readState ctx assetId ;;
  let assetBuffer := JSON_stringify asset in
  removePrivateData ctx assetId ;;;
  setEvent "DeleteAsset" assetBuffer ;;;
  deleteState assetId.

End Contract.
End AssetTransferEvents.

(** ** Reference implementations of the two builtins

    The contracts above are parametric in [JSON.parse] and [atob].  The
    implementations below instantiate them at concrete inputs.  The parser
    reads the JSON texts whose numbers are integers (a fraction or an
    exponent part, and a [\u] escape of a surrogate, are outside its
    domain and are answered [None]); [atob] reads base64 text, padded or
    not, that has no white space in it. *)

Module Reference.

Open Scope char_scope.

Definition is_ws (c : ascii) : bool :=
  let n := N_of_ascii c in
  ((n =? 32) || (n =? 9) || (n =? 10) || (n =? 13))%N.

Fixpoint skip_ws (cs : list ascii) : list ascii :=
  match cs with
  | c :: rest => if is_ws c then skip_ws rest else cs
  | [] => []
  end.

Definition digit_of (c : ascii) : option Z :=
  let n := N_of_ascii c in
  if ((48 <=? n) && (n <=? 57))%N then Some (Z.of_N n - 48)%Z else None.

Definition hex_of (c : ascii) : option N :=
  let n := N_of_ascii c in
  if ((48 <=? n) && (n <=? 57))%N then Some (n - 48)%N
  else if ((97 <=? n) && (n <=? 102))%N then Some (n - 87)%N
  else if ((65 <=? n) && (n <=? 70))%N then Some (n - 55)%N
  else None.

(** The UTF-8 bytes of a code point of the basic plane. *)
Definition utf8 (cp : N) : option (list ascii) :=
  if (cp <? 128)%N then Some [ascii_of_N cp]
  else if (cp <? 2048)%N then
    Some [ascii_of_N (192 + cp / 64); ascii_of_N (128 + cp mod 64)]
  else if ((55296 <=? cp) && (cp <=? 57343))%N then None
  else Some [ascii_of_N (224 + cp / 4096); ascii_of_N (128 + (cp / 64) mod 64);
             ascii_of_N (128 + cp mod 64)].

Fixpoint digits (cs : list ascii) (acc : Z) : Z * list ascii :=
  match cs with
  | c :: rest =>
      match digit_of c with
      | Some d => digits rest (10 * acc + d)%Z
      | None => (acc, cs)
      end
  | [] => (acc, [])
  end.

Definition ends_number (rest : list ascii) : bool :=
  match rest with
  | "." :: _ | "e" :: _ | "E" :: _ => false
  | _ => true
  end.

(** [int] of the JSON grammar: [0], or a non-zero digit and more digits. *)
Definition parse_nat (cs : list ascii) : option (Z * list ascii) :=
  match cs with
  | "0" :: rest =>
      match rest with
      | c :: _ =>
          match digit_of c with
          | Some _ => None
          | None => if ends_number rest then Some (0%Z, rest) else None
          end
      | [] => Some (0%Z, [])
      end
  | c :: rest =>
      match digit_of c with
      | Some d => let '(n, rest') := digits rest d in
                  if ends_number rest' then Some (n, rest') else None
      | None => None
      end
  | [] => None
  end.

Fixpoint parse_string (cs : list ascii) : option (list ascii * list ascii) :=
  match cs with
  | [] => None
  | c :: rest =>
      if Ascii.eqb c dquote then Some ([], rest)
      else if Ascii.eqb c backslash then
        match rest with
        | "u" :: h1 :: h2 :: h3 :: h4 :: rest' =>
            match hex_of h1, hex_of h2, hex_of h3, hex_of h4 with
            | Some a, Some b, Some c', Some d =>
                match utf8 (((a * 16 + b) * 16 + c') * 16 + d)%N, parse_string rest' with
                | Some bytes, Some (s, out) => Some ((bytes ++ s)%list, out)
                | _, _ => None
                end
            | _, _, _, _ => None
            end
        | e :: rest' =>
            let plain :=
              if Ascii.eqb e dquote then Some dquote
              else if Ascii.eqb e backslash then Some backslash
              else match e with
                   | "/" => Some "/" | "b" => Some "008" | "f" => Some "012"
                   | "n" => Some "010" | "r" => Some "013" | "t" => Some "009"
                   | _ => None
                   end in
            match plain, parse_string rest' with
            | Some p, Some (s, out) => Some (p :: s, out)
            | _, _ => None
            end
        | [] => None
        end
      else if (N_of_ascii c <? 32)%N then None
      else match parse_string rest with
           | Some (s, out) => Some (c :: s, out)
           | None => None
           end
  end.

Fixpoint parse_value (fuel : nat) (cs : list ascii) : option (json * list ascii) :=
  match fuel with
  | O => None
  | S fuel' =>
      match skip_ws cs with
      | "n" :: "u" :: "l" :: "l" :: rest => Some (JNull, rest)
      | "t" :: "r" :: "u" :: "e" :: rest => Some (JBool true, rest)
      | "f" :: "a" :: "l" :: "s" :: "e" :: rest => Some (JBool false, rest)
      | "[" :: rest =>
          match skip_ws rest with
          | "]" :: rest' => Some (JArr [], rest')
          | _ => parse_elements fuel' rest []
          end
      | "{" :: rest =>
          match skip_ws rest with
          | "}" :: rest' => Some (JObj [], rest')
          | _ => parse_members fuel' rest []
          end
      | "-" :: rest =>
          match parse_nat rest with
          | Some (n, rest') => Some (JNum (- n), rest')
          | None => None
          end
      | c :: rest =>
          if Ascii.eqb c dquote then
            match parse_string rest with
            | Some (s, rest') => Some (JStr (string_of_list_ascii s), rest')
            | None => None
            end
          else
            match parse_nat (c :: rest) with
            | Some (n, rest') => Some (JNum n, rest')
            | None => None
            end
      | [] => None
      end
  end
with parse_elements (fuel : nat) (cs : list ascii) (acc : list json) : option (json * list ascii) :=
  match fuel with
  | O => None
  | S fuel' =>
      match parse_value fuel' cs with
      | Some (v, rest) =>
          match skip_ws rest with
          | "," :: rest' => parse_elements fuel' rest' (acc ++ [v])%list
          | "]" :: rest' => Some (JArr (acc ++ [v])%list, rest')
          | _ => None
          end
      | None => None
      end
  end
with parse_members (fuel : nat) (cs : list ascii) (acc : list (string * json)) : option (json * list ascii) :=
  match fuel with
  | O => None
  | S fuel' =>
      match skip_ws cs with
      | c :: rest =>
          if Ascii.eqb c dquote then
            match parse_string rest with
            | Some (k, rest1) =>
                match skip_ws rest1 with
                | ":" :: rest2 =>
                    match parse_value fuel' rest2 with
                    | Some (v, rest3) =>
                        let acc' := set_field (string_of_list_ascii k) v acc in
                        match skip_ws rest3 with
                        | "," :: rest4 => parse_members fuel' rest4 acc'
                        | "}" :: rest4 => Some (JObj acc', rest4)
                        | _ => None
                        end
                    | None => None
                    end
                | _ => None
                end
            | None => None
            end
          else None
      | [] => None
      end
  end.

Definition JSON_parse (text : string) : option json :=
  let cs := list_ascii_of_string text in
  match parse_value (2 * List.length cs + 2) cs with
  | Some (j, rest) =>
      match skip_ws rest with
      | [] => Some j
      | _ => None
      end
  | None => None
  end.

(** [atob]: the sextet of a character of the base64 alphabet. *)
Definition sextet (c : ascii) : option N :=
  let n := N_of_ascii c in
  if ((65 <=? n) && (n <=? 90))%N then Some (n - 65)%N
  else if ((97 <=? n) && (n <=? 122))%N then Some (n - 71)%N
  else if ((48 <=? n) && (n <=? 57))%N then Some (n + 4)%N
  else if (n =? 43)%N then Some 62%N
  else if (n =? 47)%N then Some 63%N
  else None.

Fixpoint decode (cs : list ascii) : option (list ascii) :=
  match cs with
  | [] => Some []
  | [a; b] | [a; b; "="; "="] =>
      match sextet a, sextet b with
      | Some x, Some y => Some [ascii_of_N (x * 4 + y / 16)]
      | _, _ => None
      end
  | [a; b; c] | [a; b; c; "="] =>
      match sextet a, sextet b, sextet c with
      | Some x, Some y, Some z =>
          Some [ascii_of_N (x * 4 + y / 16); ascii_of_N ((y mod 16) * 16 + z / 4)]
      | _, _, _ => None
      end
  | a :: b :: c :: d :: rest =>
      match sextet a, sextet b, sextet c, sextet d, decode rest with
      | Some x, Some y, Some z, Some w, Some out =>
          Some (ascii_of_N (x * 4 + y / 16) :: ascii_of_N ((y mod 16) * 16 + z / 4)
                :: ascii_of_N ((z mod 4) * 64 + w) :: out)
      | _, _, _, _, _ => None
      end
  | _ => None
  end.

Definition atob (b64 : string) : option string :=
  match decode (list_ascii_of_string b64) with
  | Some bytes => Some (string_of_list_ascii bytes)
  | None => None
  end.

End Reference.

(** ** Vocabulary of the properties *)

(** The element of the listing that stands for one result of the range
    scan: its key, and its payload decoded, or raw when it does not decode. *)
Definition listing_entry (JSON_parse : string -> option json) (result : string * string) : json :=
  JObj [("Key", JStr (fst result));
        ("Record", match JSON_parse (snd result) with
                   | Some parsed => parsed
                   | None => JStr (snd result)
                   end)].

(** The ledger [l'] is [l] with [text] written under [id], and carries the
    event [name] with that same [text] as its payload. *)
Definition written_with_event (name id : string) (l l' : Ledger) : Prop :=
  exists text : string,
    world l' = <[id := text]> (world l) /\ event l' = Some (name, text).

(** A value that [JSON.parse] returned and that is neither an object nor an
    array: [null], a boolean, a number or a string. *)
Definition is_primitive (j : json) : bool :=
  match j with
  | JObj _ | JArr _ => false
  | _ => true
  end.

(** ** Concrete callers and ledgers used by the examples *)

Module Scenario.

(** Alice carries [abac.creator = "true"] and belongs to the peer's
    organisation; her [getID()] is the base64 of [alice]. *)
Definition alice : Context :=
  mkContext (<["abac.creator" := "true"]> ∅) (Some "YWxpY2U=") "Org1MSP" "Org1MSP" ∅.

(** Bob has no attribute and belongs to another organisation. *)
Definition bob : Context :=
  mkContext ∅ (Some "Ym9i") "Org2MSP" "Org1MSP" ∅.

Definition asset1_fields : list (string * json) :=
  [("ID", JStr "asset1"); ("Color", JStr "blue"); ("Size", JNum 5);
   ("Owner", JStr "alice"); ("AppraisedValue", JNum 300)].

Definition asset1_record : string := JSON_stringify (JObj asset1_fields).

Definition asset1_properties : json :=
  JObj [("object_type", JStr "asset_properties"); ("salt", JStr "a94a8fe5")].

Definition empty_ledger : Ledger := mkLedger ∅ ∅ None.

(** [asset1] is on the ledger, owned by [alice], with a private entry in
    the implicit collection of the peer's organisation. *)
Definition ledger1 : Ledger :=
  mkLedger (<["asset1" := asset1_record]> ∅)
           (<[("_implicit_org_Org1MSP", "asset1") := JSON_stringify asset1_properties]> ∅)
           None.

(** A ledger with a payload that is not JSON between two that are. *)
Definition ledger_mixed : Ledger :=
  mkLedger (<["asset3" := "7"]> (<["asset2" := "not json"]> (<["asset1" := asset1_record]> ∅)))
           ∅ None.

(** Carol, of the peer's organisation, submits with properties in the
    transient map. *)
Definition carol : Context :=
  mkContext ∅ (Some "Y2Fyb2w=") "Org1MSP" "Org1MSP"
    (<["asset_properties" := JSON_stringify asset1_properties]> ∅).

(** Dave, of the peer's organisation, submits with transient properties
    that are not JSON. *)
Definition dave : Context :=
  mkContext ∅ (Some "ZGF2ZQ==") "Org1MSP" "Org1MSP"
    (<["asset_properties" := "salt=a94a8fe5"]> ∅).

End Scenario.

(** ** The Go chaincode ([SmartContract] of asset-contract.go)

    A Go function returns its values together with an [error], and may
    panic.  The shim calls are those of the ledger above; over it they
    return a [nil] error, and the source's tests of that error are kept. *)

Module SmartContract.

(** Modelled from the spec: the struct [Asset] is declared in a file that
    is not among the sources; its fields are those of the data model, as
    the contract reads and writes them. *)
Record Asset : Type := mkAsset {
  ID : string;
  Color : string;
  Size : Z;
  Owner : string;
  AppraisedValue : Z
}.

(** An [error] value: [None] is [nil], [Some] carries the message. *)
Definition error : Type := option string.

Inductive go_outcome (A : Type) : Type :=
  | Returns (a : A)
  | Panics (message : string).
Arguments Returns {A} a.
Arguments Panics {A} message.

Definition G (A : Type) : Type := Ledger -> go_outcome A * Ledger.

Definition greturn {A} (a : A) : G A := fun l => (Returns a, l).
Definition gpanic {A} (message : string) : G A := fun l => (Panics message, l).
Definition gbind {A B} (m : G A) (k : A -> G B) : G B :=
  fun l => match m l with
           | (Returns a, l') => k a l'
           | (Panics message, l') => (Panics message, l')
           end.

Notation "x <-- m ;; k" := (gbind m (fun x => k))
  (at level 100, m at next level, right associativity).

(** Modelled from the spec: the shim over the ledger.  An absent key is a
    [nil] slice, [None]. *)
Definition GetState (key : string) : G (option string * error) :=
  fun l => (Returns (world l !! key, None), l).

Definition PutState (key value : string) : G error :=
  fun l => (Returns None, mkLedger (<[key := value]> (world l)) (private l) (event l)).

Definition DelState (key : string) : G error :=
  fun l => (Returns None, mkLedger (delete key (world l)) (private l) (event l)).

Definition GetPrivateData (collection key : string) : G (option string * error) :=
  fun l => (Returns (private l !! (collection, key), None), l).

Definition PutPrivateData (collection key value : string) : G error :=
  fun l => (Returns None,
            mkLedger (world l) (<[(collection, key) := value]> (private l)) (event l)).

Definition DelPrivateData (collection key : string) : G error :=
  fun l => (Returns None,
            mkLedger (world l) (delete (collection, key) (private l)) (event l)).

Definition SetEvent (name payload : string) : G error :=
  fun l => (Returns None, mkLedger (world l) (private l) (Some (name, payload))).

Definition GetTransient (ctx : Context) : gmap string string * error := (transient ctx, None).
Definition ClientMSPID (ctx : Context) : string * error := (clientMSPID ctx, None).
Definition PeerMSPID (ctx : Context) : string * error := (peerMSPID ctx, None).

(** [base64.StdEncoding]: the character of a sextet, and the encoding of a
    byte string with its padding. *)
Definition base64_char (n : N) : ascii :=
  if (n <? 26)%N then ascii_of_N (65 + n)
  else if (n <? 52)%N then ascii_of_N (71 + n)
  else if (n <? 62)%N then ascii_of_N (n - 4)
  else if (n =? 62)%N then "+"%char
  else "/"%char.

Fixpoint base64 (bytes : list ascii) : list ascii :=
  match bytes with
  | [] => []
  | [a] =>
      let x := N_of_ascii a in
      [base64_char (x / 4); base64_char ((x mod 4) * 16); "="%char; "="%char]
  | [a; b] =>
      let x := N_of_ascii a in
      let y := N_of_ascii b in
      [base64_char (x / 4); base64_char ((x mod 4) * 16 + y / 16);
       base64_char ((y mod 16) * 4); "="%char]
  | a :: b :: c :: rest =>
      let x := N_of_ascii a in
      let y := N_of_ascii b in
      let z := N_of_ascii c in
      base64_char (x / 4) :: base64_char ((x mod 4) * 16 + y / 16)
        :: base64_char ((y mod 16) * 4 + z / 64) :: base64_char (z mod 64) :: base64 rest
  end%N.

(** [json.NewEncoder(buffer).Encode(assetJSON)] with a byte slice for its
    argument: what lands in the buffer is the JSON string of the base64 of
    the bytes, and a newline. *)
Definition Encode (assetJSON : string) : string :=
  String dquote
    (string_of_list_ascii (base64 (list_ascii_of_string assetJSON))
       ++ String dquote (String "010"%char EmptyString)).

Section Contract.

(** [json.Marshal] of an [Asset] (it returns no error for this struct) and
    [json.Unmarshal] into a fresh [Asset] (the struct it has filled, and its
    error) depend on the field tags of the struct; the contract is embedded
    over any such pair. *)
Context (json_Marshal : Asset -> string).
Context (json_Unmarshal : string -> Asset * error).

(** The bytes of a slice, none for [nil]. *)
Definition bytes_of (slice : option string) : string := default EmptyString slice.

Definition AssetExists (ctx : Context) (id : string) : G (bool * error) :=
  r <-- GetState id ;;
  match r with
  | (asset, Some err) => greturn (false, Some ("failed to read from world state: " ++ err))
  | (asset, None) => greturn (bool_decide (asset <> None), None)
  end.

Definition savePrivateData (ctx : Context) (assetKey : string) : G error :=
  match ClientMSPID ctx with
  | (clientOrg, Some err) => greturn (Some ("error retrieving clientMSPID: " ++ err))
  | (clientOrg, None) =>
      match PeerMSPID ctx with
      | (peerOrg, Some err) => greturn (Some ("error retrieving peer MSPID: " ++ err))
      | (peerOrg, None) =>
          let collection := "_implicit_org_" ++ peerOrg in
          if String.eqb clientOrg peerOrg then
            match GetTransient ctx with
            | (transientMap, Some err) =>
                greturn (Some ("error retrieving transient data: " ++ err))
            | (transientMap, None) =>
                match transientMap !! "asset_properties" with
                | Some properties =>
                    _ <-- PutPrivateData collection assetKey properties ;;
                    greturn None
                | None => greturn None
                end
            end
          else greturn None
      end
  end.

Definition removePrivateData (ctx : Context) (assetKey : string) : G error :=
  match ClientMSPID ctx with
  | (clientOrg, Some err) => greturn (Some ("error retrieving clientMSPID: " ++ err))
  | (clientOrg, None) =>
      match PeerMSPID ctx with
      | (peerOrg, Some err) => greturn (Some ("error retrieving peer MSPID: " ++ err))
      | (peerOrg, None) =>
          let collection := "_implicit_org_" ++ peerOrg in
          if String.eqb clientOrg peerOrg then DelPrivateData collection assetKey
          else greturn None
      end
  end.

(** [tMap] is declared and never made: the first assignment to it panics. *)
Definition addPrivateData (ctx : Context) (assetKey : string) (asset : Asset)
    : G (option string * error) :=
  match ClientMSPID ctx with
  | (clientOrg, Some err) => greturn (None, Some ("error retrieving clientMSPID: " ++ err))
  | (clientOrg, None) =>
      match PeerMSPID ctx with
      | (peerOrg, Some err) => greturn (None, Some ("error retrieving peer MSPID: " ++ err))
      | (peerOrg, None as err) =>
          let collection := "_implicit_org_" ++ peerOrg in
          if String.eqb clientOrg peerOrg then
            r <-- GetPrivateData collection assetKey ;;
            match r with
            | (propertiesBuffer, Some err') =>
                greturn (None, Some ("failed to read from private data collection: " ++ err'))
            | (propertiesBuffer, None) => gpanic "assignment to entry in nil map"
            end
          else greturn (None, err)
      end
  end.

Definition readState (ctx : Context) (id : string) : G (option Asset * error) :=
  r <-- GetState id ;;
  match r with
  | (assetBuffer, Some err) =>
      greturn (None, Some ("The asset ${id} does not exist: " ++ err))
  | (assetBuffer, None) =>
      match json_Unmarshal (bytes_of assetBuffer) with
      | (asset, Some err) => greturn (None, Some err)
      | (asset, None) => greturn (Some asset, None)
      end
  end.

Definition CreateAsset (ctx : Context) (id color : string) (size : Z) (owner : string)
    (appraisedValue : Z) : G error :=
  r <-- AssetExists ctx id ;;
  match r with
  | (exists_, Some err) => greturn (Some err)
  | (exists_, None) =>
      if negb exists_ then greturn (Some ("the asset " ++ id ++ " already exists"))
      else
        let asset := mkAsset id color size owner appraisedValue in
        err <-- savePrivateData ctx id ;;
        match err with
        | Some e => greturn (Some e)
        | None =>
            let assetJSON := json_Marshal asset in
            err <-- SetEvent "CreateAsset" assetJSON ;;
            match err with
            | Some e => greturn (Some e)
            | None => PutState id assetJSON
            end
        end
  end.

Definition ReadAsset (ctx : Context) (id : string) : G (option Asset * error) :=
  r <-- readState ctx id ;;
  match r with
  | (_, Some err) => greturn (None, Some ("failed to read from world state: " ++ err))
  | (None, None) => gpanic "nil pointer dereference"
  | (Some asset, None) =>
      r <-- addPrivateData ctx (ID asset) asset ;;
      match r with
      | (assetJSON, Some err) => greturn (None, Some err)
      | (assetJSON, None) =>
          match json_Unmarshal (bytes_of assetJSON) with
          | (asset1, Some err) => greturn (None, Some err)
          | (asset1, None) => greturn (Some asset1, None)
          end
      end
  end.

Definition UpdateAsset (ctx : Context) (id color : string) (size : Z) (owner : string)
    (appraisedValue : Z) : G error :=
  r <-- readState ctx id ;;
  match r with
  | (_, Some err) => greturn (Some err)
  | (None, None) => gpanic "nil pointer dereference"
  | (Some asset, None) =>
      let asset := mkAsset (ID asset) color size owner appraisedValue in
      let assetJSON := json_Marshal asset in
      let assetBuffer := Encode assetJSON in
      err <-- savePrivateData ctx id ;;
      match err with
      | Some e => greturn (Some e)
      | None =>
          err <-- SetEvent "UpdateAsset" assetBuffer ;;
          match err with
          | Some e => greturn (Some e)
          | None => PutState id assetBuffer
          end
      end
  end.

(** [json.Marshal] of the pointer: a [nil] pointer prints as [null]. *)
Definition json_Marshal_pointer (asset : option Asset) : string :=
  match asset with
  | Some a => json_Marshal a
  | None => "null"
  end.

Definition DeleteAsset (ctx : Context) (id : string) : G error :=
  r <-- readState ctx id ;;
  match r with
  | (_, Some err) => greturn (Some err)
  | (asset, None) =>
      let assetJSON := json_Marshal_pointer asset in
      let assetBuffer := Encode assetJSON in
      err <-- removePrivateData ctx id ;;
      match err with
      | Some e => greturn (Some e)
      | None =>
          err <-- SetEvent "DeleteAsset" assetBuffer ;;
          match err with
          | Some e => greturn (Some e)
          | None => DelState id
          end
      end
  end.

Definition TransferAsset (ctx : Context) (id newOwner : string) : G error :=
  r <-- readState ctx id ;;
  match r with
  | (_, Some err) => greturn (Some err)
  | (None, None) => gpanic "nil pointer dereference"
  | (Some asset, None) =>
      let asset := mkAsset (ID asset) (Color asset) (Size asset) newOwner
                     (AppraisedValue asset) in
      let assetJSON := json_Marshal asset in
      let assetBuffer := Encode assetJSON in
      err <-- SetEvent "TransferAsset" assetBuffer ;;
      match err with
      | Some e => greturn (Some e)
      | None => PutState id assetBuffer
      end
  end.

End Contract.
End SmartContract.

(** Reference implementations of [json.Marshal] and [json.Unmarshal] for
    an [Asset] whose fields are tagged with their own names.  [Unmarshal]
    reads the texts that the reference parser reads; a member that is
    missing leaves the zero value of its field. *)

Module GoReference.

Definition json_Marshal (asset : SmartContract.Asset) : string :=
  JSON_stringify (JObj [("ID", JStr (SmartContract.ID asset));
                        ("Color", JStr (SmartContract.Color asset));
                        ("Size", JNum (SmartContract.Size asset));
                        ("Owner", JStr (SmartContract.Owner asset));
                        ("AppraisedValue", JNum (SmartContract.AppraisedValue asset))]).

Definition zero : SmartContract.Asset :=
  SmartContract.mkAsset EmptyString EmptyString 0 EmptyString 0.

Definition string_member (name : string) (fields : list (string * json)) : option string :=
  match assoc name fields with
  | None | Some JNull => Some EmptyString
  | Some (JStr s) => Some s
  | Some _ => None
  end.

Definition int_member (name : string) (fields : list (string * json)) : option Z :=
  match assoc name fields with
  | None | Some JNull => Some 0%Z
  | Some (JNum n) => Some n
  | Some _ => None
  end.

Definition json_Unmarshal (data : string) : SmartContract.Asset * SmartContract.error :=
  match Reference.JSON_parse data with
  | None =>
      (zero, Some (if is_empty data then "unexpected end of JSON input"
                   else "invalid character in JSON input"))
  | Some JNull => (zero, None)
  | Some (JObj fields) =>
      match string_member "ID" fields, string_member "Color" fields, int_member "Size" fields,
            string_member "Owner" fields, int_member "AppraisedValue" fields with
      | Some id, Some color, Some size, Some owner, Some appraisedValue =>
          (SmartContract.mkAsset id color size owner appraisedValue, None)
      | _, _, _, _, _ =>
          (zero, Some "json: cannot unmarshal a member into its Go struct field")
      end
  | Some _ => (zero, Some "json: cannot unmarshal into Go value of type main.Asset")
  end.

End GoReference.

(** The transaction functions of the Go chaincode with their arguments. *)
Inductive go_transaction : Type :=
  | GoCreateAsset (id color : string) (size : Z) (owner : string) (appraisedValue : Z)
  | GoReadAsset (id : string)
  | GoUpdateAsset (id color : string) (size : Z) (owner : string) (appraisedValue : Z)
  | GoDeleteAsset (id : string)
  | GoAssetExists (id : string)
  | GoTransferAsset (id newOwner : string).

(** The ledger after one transaction of the Go chaincode.  A transaction
    that returns an error or panics is not committed: the ledger stays. *)
Definition go_submit (json_Marshal : SmartContract.Asset -> string)
    (json_Unmarshal : string -> SmartContract.Asset * SmartContract.error)
    (ctx : Context) (tx : go_transaction) (l : Ledger) : Ledger :=
  let commit (r : SmartContract.go_outcome SmartContract.error * Ledger) :=
    match r with
    | (SmartContract.Returns None, l') => l'
    | _ => l
    end in
  match tx with
  | GoCreateAsset id color size owner appraisedValue =>
      commit (SmartContract.CreateAsset json_Marshal ctx id color size owner appraisedValue l)
  | GoReadAsset id => snd (SmartContract.ReadAsset json_Unmarshal ctx id l)
  | GoUpdateAsset id color size owner appraisedValue =>
      commit (SmartContract.UpdateAsset json_Marshal json_Unmarshal ctx id color size owner
                appraisedValue l)
  | GoDeleteAsset id =>
      commit (SmartContract.DeleteAsset json_Marshal json_Unmarshal ctx id l)
  | GoAssetExists id => snd (SmartContract.AssetExists ctx id l)
  | GoTransferAsset id newOwner =>
      commit (SmartContract.TransferAsset json_Marshal json_Unmarshal ctx id newOwner l)
  end.

Fixpoint go_submit_all (json_Marshal : SmartContract.Asset -> string)
    (json_Unmarshal : string -> SmartContract.Asset * SmartContract.error)
    (txs : list (Context * go_transaction)) (l : Ledger) : Ledger :=
  match txs with
  | [] => l
  | (ctx, tx) :: rest =>
      go_submit_all json_Marshal json_Unmarshal rest
        (go_submit json_Marshal json_Unmarshal ctx tx l)
  end.

(** ** Sequences of transactions of the access-controlled contract *)

(** The transaction functions with their arguments. *)
Inductive transaction : Type :=
  | CallCreateAsset (id color : string) (size appraisedValue : Z)
  | CallReadAsset (id : string)
  | CallUpdateAsset (id color : string) (size appraisedValue : Z)
  | CallDeleteAsset (id : string)
  | CallAssetExists (id : string)
  | CallTransferAsset (id newOwner : string)
  | CallGetAllAssets.

(** The ledger after one transaction submitted by the caller [ctx]. *)
Definition submit (JSON_parse : string -> option json) (atob : string -> option string)
    (ctx : Context) (tx : transaction) (l : Ledger) : Ledger :=
  match tx with
  | CallCreateAsset id color size appraisedValue =>
      snd (AssetTransferContract.CreateAsset atob ctx id color size appraisedValue l)
  | CallReadAsset id => snd (AssetTransferContract.ReadAsset ctx id l)
  | CallUpdateAsset id color size appraisedValue =>
      snd (AssetTransferContract.UpdateAsset JSON_parse atob ctx id color size appraisedValue l)
  | CallDeleteAsset id => snd (AssetTransferContract.DeleteAsset JSON_parse atob ctx id l)
  | CallAssetExists id => snd (AssetTransferContract.AssetExists ctx id l)
  | CallTransferAsset id newOwner =>
      snd (AssetTransferContract.TransferAsset JSON_parse atob ctx id newOwner l)
  | CallGetAllAssets => snd (AssetTransferContract.GetAllAssets JSON_parse ctx l)
  end.

(** The ledger after a sequence of transactions, each with its caller. *)
Fixpoint submit_all (JSON_parse : string -> option json) (atob : string -> option string)
    (txs : list (Context * transaction)) (l : Ledger) : Ledger :=
  match txs with
  | [] => l
  | (ctx, tx) :: rest => submit_all JSON_parse atob rest (submit JSON_parse atob ctx tx l)
  end.

(** ** Properties *)

Lemma getState_stored (l : Ledger) (id stored : string) :
  world l !! id = Some stored -> getState id l = (Ok stored, l).
Proof. intros H. unfold getState. now rewrite H. Qed.

Lemma getState_absent (l : Ledger) (id : string) :
  world l !! id = None -> getState id l = (Ok EmptyString, l).
Proof. intros H. unfold getState. now rewrite H. Qed.

Lemma stringify_object_not_empty (fields : list (string * json)) :
  is_empty (JSON_stringify (JObj fields)) = false.
Proof. reflexivity. Qed.

Lemma AssetExists_stored (ctx : Context) (l : Ledger) (id stored : string) :
  world l !! id = Some stored -> is_empty stored = false ->
  AssetTransferContract.AssetExists ctx id l = (Ok true, l).
Proof.
  intros Hs He. unfold AssetTransferContract.AssetExists, bind.
  rewrite (getState_stored _ _ _ Hs). unfold ret. now rewrite He.
Qed.

Lemma AssetExists_absent (ctx : Context) (l : Ledger) (id : string) :
  world l !! id = None ->
  AssetTransferContract.AssetExists ctx id l = (Ok false, l).
Proof.
  intros Hs. unfold AssetTransferContract.AssetExists, bind.
  now rewrite (getState_absent _ _ Hs).
Qed.

Lemma ReadAsset_stored (ctx : Context) (l : Ledger) (id stored : string) :
  world l !! id = Some stored -> is_empty stored = false ->
  AssetTransferContract.ReadAsset ctx id l = (Ok stored, l).
Proof.
  intros Hs He. unfold AssetTransferContract.ReadAsset, bind.
  rewrite (getState_stored _ _ _ Hs). now rewrite He.
Qed.

(** C4. A caller whose certificate does not carry the attribute
    [abac.creator] with the value ["true"] cannot create: [CreateAsset]
    throws the authorisation error whether or not the id is free, and the
    ledger is left as it was, so no record is written. *)
Theorem CreateAsset_without_creator_attribute
    (atob : string -> option string) (ctx : Context) (id color : string)
    (size appraisedValue : Z) (l : Ledger) :
  attrs ctx !! "abac.creator" <> Some "true" ->
  AssetTransferContract.CreateAsset atob ctx id color size appraisedValue l
    = (Throw Unauthorized, l).
Proof.
  intros Hattr. unfold AssetTransferContract.CreateAsset, assertAttributeValue.
  rewrite bool_decide_eq_false_2 by exact Hattr. reflexivity.
Qed.

(** Bob, without the attribute, on the free id [asset2] and on the taken
    id [asset1]. *)
Lemma CreateAsset_without_creator_attribute_witness :
  attrs Scenario.bob !! "abac.creator" <> Some "true" /\
  AssetTransferContract.CreateAsset Reference.atob Scenario.bob "asset2" "red" 7 100
      Scenario.ledger1
    = (Throw Unauthorized, Scenario.ledger1) /\
  AssetTransferContract.CreateAsset Reference.atob Scenario.bob "asset1" "red" 7 100
      Scenario.ledger1
    = (Throw Unauthorized, Scenario.ledger1).
Proof.
  assert (H : attrs Scenario.bob !! "abac.creator" <> Some "true")
    by (vm_compute; discriminate).
  split; [exact H |]. split.
  - exact (CreateAsset_without_creator_attribute Reference.atob Scenario.bob
             "asset2" "red" 7 100 Scenario.ledger1 H).
  - exact (CreateAsset_without_creator_attribute Reference.atob Scenario.bob
             "asset1" "red" 7 100 Scenario.ledger1 H).
Defined.

(** C5. Reading an id that has no record in the world state fails with the
    not-found error: in the access-controlled contract's [ReadAsset], and in
    the events contract's [readState] and hence its [ReadAsset]. *)
Theorem ReadAsset_absent_NotFound
    (JSON_parse : string -> option json) (ctx : Context) (id : string) (l : Ledger) :
  world l !! id = None ->
  AssetTransferContract.ReadAsset ctx id l = (Throw (NotFound id), l) /\
  AssetTransferEvents.readState JSON_parse ctx id l = (Throw (NotFound id), l) /\
  AssetTransferEvents.ReadAsset JSON_parse ctx id l = (Throw (NotFound id), l).
Proof.
  intros Habs.
  unfold AssetTransferEvents.ReadAsset, AssetTransferEvents.ReadAsset_asset,
    AssetTransferEvents.readState, AssetTransferContract.ReadAsset, bind.
  rewrite (getState_absent _ _ Habs). simpl. auto.
Qed.

Lemma ReadAsset_absent_NotFound_witness :
  world Scenario.ledger1 !! "asset9" = None /\
  AssetTransferContract.ReadAsset Scenario.alice "asset9" Scenario.ledger1
    = (Throw (NotFound "asset9"), Scenario.ledger1) /\
  AssetTransferEvents.readState Reference.JSON_parse Scenario.alice "asset9" Scenario.ledger1
    = (Throw (NotFound "asset9"), Scenario.ledger1) /\
  AssetTransferEvents.ReadAsset Reference.JSON_parse Scenario.alice "asset9" Scenario.ledger1
    = (Throw (NotFound "asset9"), Scenario.ledger1).
Proof.
  assert (H : world Scenario.ledger1 !! "asset9" = None) by (vm_compute; reflexivity).
  split; [exact H |].
  exact (ReadAsset_absent_NotFound Reference.JSON_parse Scenario.alice
           "asset9" Scenario.ledger1 H).
Defined.

(** [CreateAsset] of the access-controlled contract succeeds only past both
    guards, and then the ledger differs by the one [putState]. *)
Lemma CreateAsset_success_inv
    (atob : string -> option string) (ctx : Context) (id color : string)
    (size appraisedValue : Z) (l l' : Ledger) :
  AssetTransferContract.CreateAsset atob ctx id color size appraisedValue l = (Ok tt, l') ->
  assertAttributeValue ctx "abac.creator" "true" = true /\
  is_empty (default EmptyString (world l !! id)) = true /\
  l' = mkLedger
         (<[id := JSON_stringify (JObj [("ID", JStr id); ("Color", JStr color);
                                        ("Size", JNum size); ("Owner", JObj []);
                                        ("AppraisedValue", JNum appraisedValue)])]> (world l))
         (private l) (event l).
Proof.
  unfold AssetTransferContract.CreateAsset, AssetTransferContract.AssetExists,
    bind, getState, ret, throw, putState.
  destruct (assertAttributeValue ctx "abac.creator" "true"); simpl; [| discriminate].
  destruct (is_empty (default EmptyString (world l !! id))); simpl; [| discriminate].
  intros H. injection H as <-. auto.
Qed.

(** An authorised caller creates on a free id. *)
Lemma CreateAsset_succeeds
    (atob : string -> option string) (ctx : Context) (id color : string)
    (size appraisedValue : Z) (l : Ledger) :
  attrs ctx !! "abac.creator" = Some "true" ->
  world l !! id = None ->
  exists l', AssetTransferContract.CreateAsset atob ctx id color size appraisedValue l
               = (Ok tt, l').
Proof.
  intros Hattr Habs. unfold AssetTransferContract.CreateAsset, assertAttributeValue.
  rewrite bool_decide_eq_true_2 by exact Hattr. simpl. unfold bind.
  rewrite (AssetExists_absent ctx l id Habs). eexists. reflexivity.
Qed.

(** What [CreateAsset] does is the same for all callers with the same
    attributes: neither [getID()] nor [atob] has a part in it. *)
Lemma CreateAsset_ignores_identity
    (atob atob' : string -> option string) (ctx ctx' : Context) (id color : string)
    (size appraisedValue : Z) (l : Ledger) :
  attrs ctx = attrs ctx' ->
  AssetTransferContract.CreateAsset atob ctx id color size appraisedValue l
    = AssetTransferContract.CreateAsset atob' ctx' id color size appraisedValue l.
Proof.
  intros Hattr. unfold AssetTransferContract.CreateAsset, assertAttributeValue.
  rewrite Hattr. reflexivity.
Qed.

(** C1 (as stated, refuted). The id [asset1] holds a record, and
    [CreateAsset] on it by a caller without the creator attribute fails with
    the authorisation error, which is not the already-exists error. *)
Lemma CreateAsset_existing_id_counterexample :
  world Scenario.ledger1 !! "asset1" = Some Scenario.asset1_record /\
  AssetTransferContract.CreateAsset Reference.atob Scenario.bob "asset1" "red" 7 100
      Scenario.ledger1
    = (Throw Unauthorized, Scenario.ledger1) /\
  Unauthorized <> AlreadyExists "asset1".
Proof.
  split; [vm_compute; reflexivity |].
  split; [vm_compute; reflexivity |].
  vm_compute. discriminate.
Qed.

(** C1 (amended). In the access-controlled contract, [CreateAsset] on an id
    that holds a record always fails and leaves the ledger, hence the record
    under that id, as it was: with the already-exists error when the caller
    carries [abac.creator = "true"], with the authorisation error when not. *)
Theorem CreateAsset_existing_id_fails
    (atob : string -> option string) (ctx : Context) (id color : string)
    (size appraisedValue : Z) (l : Ledger) (stored : string) :
  world l !! id = Some stored ->
  is_empty stored = false ->
  AssetTransferContract.CreateAsset atob ctx id color size appraisedValue l
    = (Throw (if assertAttributeValue ctx "abac.creator" "true"
              then AlreadyExists id else Unauthorized), l).
Proof.
  intros Hs He. unfold AssetTransferContract.CreateAsset.
  destruct (assertAttributeValue ctx "abac.creator" "true"); simpl; [| reflexivity].
  unfold bind. now rewrite (AssetExists_stored ctx l id stored Hs He).
Qed.

Lemma CreateAsset_existing_id_fails_witness :
  AssetTransferContract.CreateAsset Reference.atob Scenario.alice "asset1" "red" 7 100
      Scenario.ledger1
    = (Throw (AlreadyExists "asset1"), Scenario.ledger1).
Proof.
  assert (Hs : world Scenario.ledger1 !! "asset1" = Some Scenario.asset1_record)
    by (vm_compute; reflexivity).
  assert (He : is_empty Scenario.asset1_record = false) by reflexivity.
  exact (CreateAsset_existing_id_fails Reference.atob Scenario.alice "asset1" "red" 7 100
           Scenario.ledger1 Scenario.asset1_record Hs He).
Defined.

(** The events contract's [CreateAsset] has no existence check: it always
    succeeds, and the id then holds the new record whatever it held. *)
Lemma Events_CreateAsset_overwrites
    (ctx : Context) (id color owner : string) (size appraisedValue : Z) (l : Ledger) :
  exists l',
    AssetTransferEvents.CreateAsset ctx id color size owner appraisedValue l = (Ok tt, l') /\
    world l' !! id
      = Some (JSON_stringify (JObj [("ID", JStr id); ("Color", JStr color);
                                    ("Size", JNum size); ("Owner", JStr owner);
                                    ("AppraisedValue", JNum appraisedValue)])).
Proof.
  unfold AssetTransferEvents.CreateAsset, AssetTransferEvents.savePrivateData, bind.
  destruct (String.eqb (clientMSPID ctx) (peerMSPID ctx));
    [destruct (transient ctx !! "asset_properties") |];
    (eexists; split; [reflexivity |]); simpl; apply lookup_insert_eq.
Qed.

(** C6. [AssetExists] answers [false], without failing, for an id under
    which nothing is stored; and around every successful [CreateAsset] it
    answers [false] on the ledger before and [true] on the ledger after. *)
Theorem AssetExists_around_CreateAsset
    (atob : string -> option string) (ctx : Context) (id color : string)
    (size appraisedValue : Z) (l : Ledger) :
  (world l !! id = None ->
     AssetTransferContract.AssetExists ctx id l = (Ok false, l)) /\
  (forall l' : Ledger,
     AssetTransferContract.CreateAsset atob ctx id color size appraisedValue l = (Ok tt, l') ->
     AssetTransferContract.AssetExists ctx id l = (Ok false, l) /\
     AssetTransferContract.AssetExists ctx id l' = (Ok true, l')).
Proof.
  split; [apply AssetExists_absent |].
  intros l' Hc. apply CreateAsset_success_inv in Hc as (_ & Hempty & ->). split.
  - unfold AssetTransferContract.AssetExists, bind, getState, ret. now rewrite Hempty.
  - eapply AssetExists_stored; [apply lookup_insert_eq | reflexivity].
Qed.

Lemma AssetExists_around_CreateAsset_witness :
  AssetTransferContract.AssetExists Scenario.alice "asset2" Scenario.ledger1
    = (Ok false, Scenario.ledger1) /\
  AssetTransferContract.AssetExists Scenario.alice "asset2"
    (snd (AssetTransferContract.CreateAsset Reference.atob Scenario.alice "asset2" "red" 7 100
            Scenario.ledger1))
    = (Ok true,
       snd (AssetTransferContract.CreateAsset Reference.atob Scenario.alice "asset2" "red" 7 100
              Scenario.ledger1)).
Proof.
  destruct (AssetExists_around_CreateAsset Reference.atob Scenario.alice "asset2" "red" 7 100
              Scenario.ledger1) as [Habsent Hcreate].
  split.
  - apply Habsent. vm_compute. reflexivity.
  - apply Hcreate. vm_compute. reflexivity.
Defined.

Lemma GetAllAssets_loop_spec
    (JSON_parse : string -> option json) (results : list (string * string))
    (allResults : list json) :
  AssetTransferContract.GetAllAssets_loop JSON_parse results allResults
    = (allResults ++ map (listing_entry JSON_parse) results)%list.
Proof.
  revert allResults. induction results as [| [key strValue] rest IH]; intros allResults; simpl.
  - now rewrite app_nil_r.
  - rewrite IH, <- app_assoc. reflexivity.
Qed.

Lemma getStateByRange_complete (l : Ledger) (key payload : string) :
  world l !! key = Some payload -> (key, payload) ∈ getStateByRange l.
Proof.
  intros H. unfold getStateByRange. rewrite merge_sort_Permutation.
  now apply elem_of_map_to_list.
Qed.

Lemma getStateByRange_sound (l : Ledger) (key payload : string) :
  (key, payload) ∈ getStateByRange l -> world l !! key = Some payload.
Proof.
  unfold getStateByRange. rewrite merge_sort_Permutation.
  now rewrite elem_of_map_to_list.
Qed.

(** C9. The full-range listing never fails.  It returns one entry for each
    result of the scan, in the order of the scan, and the scan yields every
    stored key; the entry of a payload that [JSON.parse] rejects carries the
    raw payload as its [Record], that of a payload it accepts carries the
    decoded value, so a malformed record does not abort the listing. *)
Theorem GetAllAssets_lists_every_key
    (JSON_parse : string -> option json) (ctx : Context) (l : Ledger) :
  AssetTransferContract.GetAllAssets JSON_parse ctx l
    = (Ok (JSON_stringify (JArr (map (listing_entry JSON_parse) (getStateByRange l)))), l) /\
  length (map (listing_entry JSON_parse) (getStateByRange l)) = size (world l) /\
  (forall key payload : string,
     world l !! key = Some payload ->
     (JSON_parse payload = None ->
        JObj [("Key", JStr key); ("Record", JStr payload)]
          ∈ map (listing_entry JSON_parse) (getStateByRange l)) /\
     (forall decoded : json, JSON_parse payload = Some decoded ->
        JObj [("Key", JStr key); ("Record", decoded)]
          ∈ map (listing_entry JSON_parse) (getStateByRange l))).
Proof.
  split; [| split].
  - unfold AssetTransferContract.GetAllAssets. now rewrite GetAllAssets_loop_spec.
  - rewrite length_map. unfold getStateByRange.
    rewrite merge_sort_Permutation. apply length_map_to_list.
  - intros key payload Hs. apply getStateByRange_complete in Hs.
    split; [intros Hp | intros decoded Hp];
      apply list_elem_of_fmap; exists (key, payload);
      (split; [unfold listing_entry; simpl; now rewrite Hp | exact Hs]).
Qed.

(** The listing of a ledger whose second payload is not JSON. *)
Example GetAllAssets_mixed_ledger :
  AssetTransferContract.GetAllAssets Reference.JSON_parse Scenario.alice Scenario.ledger_mixed
    = (Ok (JSON_stringify (JArr [
             JObj [("Key", JStr "asset1"); ("Record", JObj Scenario.asset1_fields)];
             JObj [("Key", JStr "asset2"); ("Record", JStr "not json")];
             JObj [("Key", JStr "asset3"); ("Record", JNum 7)] ])),
       Scenario.ledger_mixed).
Proof. vm_compute. reflexivity. Qed.

Lemma GetAllAssets_lists_every_key_witness :
  world Scenario.ledger_mixed !! "asset2" = Some "not json" /\
  Reference.JSON_parse "not json" = None /\
  JObj [("Key", JStr "asset2"); ("Record", JStr "not json")]
    ∈ map (listing_entry Reference.JSON_parse) (getStateByRange Scenario.ledger_mixed).
Proof.
  assert (Hs : world Scenario.ledger_mixed !! "asset2" = Some "not json")
    by (vm_compute; reflexivity).
  assert (Hp : Reference.JSON_parse "not json" = None) by (vm_compute; reflexivity).
  split; [exact Hs |]. split; [exact Hp |].
  exact (proj1 (proj2 (proj2 (GetAllAssets_lists_every_key Reference.JSON_parse
                                Scenario.alice Scenario.ledger_mixed))
                      "asset2" "not json" Hs) Hp).
Defined.

Lemma Events_ReadAsset_asset_frame
    (JSON_parse : string -> option json) (ctx : Context) (id : string) (l : Ledger) :
  snd (AssetTransferEvents.ReadAsset_asset JSON_parse ctx id l) = l.
Proof.
  unfold AssetTransferEvents.ReadAsset_asset, AssetTransferEvents.readState,
    AssetTransferEvents.addPrivateData, AssetTransferEvents.private_key,
    AssetTransferEvents.parse, bind, lift, getState, getPrivateData, ret, throw.
  repeat (case_match; simpl in *; simplify_eq; try reflexivity).
Qed.

(** C10. The read-only operations leave the ledger as it was, whether they
    return or throw: [ReadAsset], [AssetExists] and [GetAllAssets] of the
    access-controlled contract, and [ReadAsset] of the events contract.  The
    ledger after the call, with its world state, is the ledger before it. *)
Theorem read_only_operations_frame
    (JSON_parse : string -> option json) (ctx : Context) (id : string) (l : Ledger) :
  snd (AssetTransferContract.ReadAsset ctx id l) = l /\
  snd (AssetTransferContract.AssetExists ctx id l) = l /\
  snd (AssetTransferContract.GetAllAssets JSON_parse ctx l) = l /\
  snd (AssetTransferEvents.ReadAsset JSON_parse ctx id l) = l.
Proof.
  split; [| split; [| split]].
  - unfold AssetTransferContract.ReadAsset, bind, getState, throw, ret.
    now destruct (is_empty _).
  - reflexivity.
  - reflexivity.
  - unfold AssetTransferEvents.ReadAsset, bind.
    pose proof (Events_ReadAsset_asset_frame JSON_parse ctx id l) as H.
    destruct (AssetTransferEvents.ReadAsset_asset JSON_parse ctx id l) as [[asset | e] l'];
      simpl in *; exact H.
Qed.

(** ** The ownership check of the access-controlled contract *)

Lemma call_member_throws (asset : json) (name : string) :
  call_member asset name = Throw TypeError.
Proof. unfold call_member, get_member. now destruct asset. Qed.

(** Whatever the ledger and the caller, the three mutating operations on an
    existing record never reach their write: they throw, not the
    authorisation error, and the ledger is left as it was. *)
Lemma mutations_never_succeed
    (JSON_parse : string -> option json) (atob : string -> option string)
    (ctx : Context) (id color newOwner : string) (size appraisedValue : Z) (l : Ledger) :
  (exists e, AssetTransferContract.UpdateAsset JSON_parse atob ctx id color size appraisedValue l
               = (Throw e, l) /\ e <> Unauthorized) /\
  (exists e, AssetTransferContract.DeleteAsset JSON_parse atob ctx id l
               = (Throw e, l) /\ e <> Unauthorized) /\
  (exists e, AssetTransferContract.TransferAsset JSON_parse atob ctx id newOwner l
               = (Throw e, l) /\ e <> Unauthorized).
Proof.
  unfold AssetTransferContract.UpdateAsset, AssetTransferContract.DeleteAsset,
    AssetTransferContract.TransferAsset, AssetTransferContract.AssetExists,
    AssetTransferContract.ReadAsset, AssetTransferContract.parse,
    bind, lift, getState, ret, throw.
  destruct (is_empty (default EmptyString (world l !! id))) eqn:He; simpl.
  - repeat split; eexists; (split; [reflexivity | discriminate]).
  - rewrite He. destruct (JSON_parse (default EmptyString (world l !! id))) as [asset |]; simpl.
    + rewrite call_member_throws.
      repeat split; eexists; (split; [reflexivity | discriminate]).
    + repeat split; eexists; (split; [reflexivity | discriminate]).
Qed.

Lemma TransferAsset_stored_throws
    (JSON_parse : string -> option json) (atob : string -> option string)
    (ctx : Context) (id newOwner : string) (l : Ledger) (stored : string) (asset : json) :
  world l !! id = Some stored ->
  is_empty stored = false ->
  JSON_parse stored = Some asset ->
  AssetTransferContract.TransferAsset JSON_parse atob ctx id newOwner l = (Throw TypeError, l).
Proof.
  intros Hs He Hp. unfold AssetTransferContract.TransferAsset, bind.
  rewrite (ReadAsset_stored ctx l id stored Hs He).
  unfold AssetTransferContract.parse. rewrite Hp. unfold ret, lift.
  now rewrite call_member_throws.
Qed.

(** C2 (what the code does). On a stored record that decodes, every caller,
    the owner or not, gets a [TypeError] from [UpdateAsset], [DeleteAsset]
    and [TransferAsset]: the call [asset.getOwner()] throws before the
    comparison with the caller's identity, so the authorisation error is
    never raised.  The ledger is left as it was. *)
Theorem ownership_check_throws_TypeError
    (JSON_parse : string -> option json) (atob : string -> option string)
    (ctx : Context) (id color newOwner : string) (size appraisedValue : Z)
    (l : Ledger) (stored : string) (asset : json) :
  world l !! id = Some stored ->
  is_empty stored = false ->
  JSON_parse stored = Some asset ->
  AssetTransferContract.UpdateAsset JSON_parse atob ctx id color size appraisedValue l
    = (Throw TypeError, l) /\
  AssetTransferContract.DeleteAsset JSON_parse atob ctx id l = (Throw TypeError, l) /\
  AssetTransferContract.TransferAsset JSON_parse atob ctx id newOwner l = (Throw TypeError, l).
Proof.
  intros Hs He Hp.
  split; [| split; [| exact (TransferAsset_stored_throws _ _ _ _ _ _ _ _ Hs He Hp)]].
  - unfold AssetTransferContract.UpdateAsset, bind.
    rewrite (AssetExists_stored ctx l id stored Hs He). simpl. unfold bind.
    rewrite (ReadAsset_stored ctx l id stored Hs He).
    unfold AssetTransferContract.parse. rewrite Hp. unfold ret, lift.
    now rewrite call_member_throws.
  - unfold AssetTransferContract.DeleteAsset, bind.
    rewrite (AssetExists_stored ctx l id stored Hs He). simpl. unfold bind.
    rewrite (ReadAsset_stored ctx l id stored Hs He).
    unfold AssetTransferContract.parse. rewrite Hp. unfold ret, lift.
    now rewrite call_member_throws.
Qed.

(** Bob, who is not the owner [alice] of [asset1], calls the three
    operations. *)
Lemma ownership_check_throws_TypeError_witness :
  AssetTransferContract.GetSubmittingClientIdentity Reference.atob Scenario.bob
    = Fulfilled "bob" /\
  assoc "Owner" Scenario.asset1_fields = Some (JStr "alice") /\
  AssetTransferContract.UpdateAsset Reference.JSON_parse Reference.atob Scenario.bob
      "asset1" "red" 7 100 Scenario.ledger1 = (Throw TypeError, Scenario.ledger1) /\
  AssetTransferContract.DeleteAsset Reference.JSON_parse Reference.atob Scenario.bob
      "asset1" Scenario.ledger1 = (Throw TypeError, Scenario.ledger1) /\
  AssetTransferContract.TransferAsset Reference.JSON_parse Reference.atob Scenario.bob
      "asset1" "bob" Scenario.ledger1 = (Throw TypeError, Scenario.ledger1).
Proof.
  assert (Hs : world Scenario.ledger1 !! "asset1" = Some Scenario.asset1_record)
    by (vm_compute; reflexivity).
  assert (He : is_empty Scenario.asset1_record = false) by reflexivity.
  assert (Hp : Reference.JSON_parse Scenario.asset1_record = Some (JObj Scenario.asset1_fields))
    by (vm_compute; reflexivity).
  split; [vm_compute; reflexivity |]. split; [reflexivity |].
  exact (ownership_check_throws_TypeError Reference.JSON_parse Reference.atob Scenario.bob
           "asset1" "red" "bob" 7 100 Scenario.ledger1 Scenario.asset1_record
           (JObj Scenario.asset1_fields) Hs He Hp).
Defined.

(** C3 (what the code does). After a successful [CreateAsset], [ReadAsset]
    returns the text of a record with the given id, colour, size and
    appraised value whose [Owner] is the empty object: the identity is
    requested without [await], and the promise that is stored in its place
    prints as an empty object. *)
Theorem CreateAsset_then_ReadAsset
    (atob : string -> option string) (ctx : Context) (id color : string)
    (size appraisedValue : Z) (l l' : Ledger) :
  AssetTransferContract.CreateAsset atob ctx id color size appraisedValue l = (Ok tt, l') ->
  AssetTransferContract.ReadAsset ctx id l'
    = (Ok (JSON_stringify (JObj [("ID", JStr id); ("Color", JStr color);
                                 ("Size", JNum size); ("Owner", JObj []);
                                 ("AppraisedValue", JNum appraisedValue)])), l').
Proof.
  intros Hc. apply CreateAsset_success_inv in Hc as (_ & _ & ->).
  eapply ReadAsset_stored; [apply lookup_insert_eq | reflexivity].
Qed.

(** Alice, whose resolved identity is [alice], creates [asset2] and reads
    it back: the record decodes to an [Owner] that is not her identity. *)
Lemma CreateAsset_then_ReadAsset_witness :
  AssetTransferContract.GetSubmittingClientIdentity Reference.atob Scenario.alice
    = Fulfilled "alice" /\
  exists (l' : Ledger) (text : string),
    AssetTransferContract.CreateAsset Reference.atob Scenario.alice "asset2" "red" 7 100
        Scenario.ledger1 = (Ok tt, l') /\
    AssetTransferContract.ReadAsset Scenario.alice "asset2" l' = (Ok text, l') /\
    Reference.JSON_parse text
      = Some (JObj [("ID", JStr "asset2"); ("Color", JStr "red"); ("Size", JNum 7);
                    ("Owner", JObj []); ("AppraisedValue", JNum 100)]).
Proof.
  split; [vm_compute; reflexivity |].
  eexists. eexists.
  assert (Hc : AssetTransferContract.CreateAsset Reference.atob Scenario.alice "asset2" "red"
                 7 100 Scenario.ledger1
               = (Ok tt, snd (AssetTransferContract.CreateAsset Reference.atob Scenario.alice
                                "asset2" "red" 7 100 Scenario.ledger1)))
    by (vm_compute; reflexivity).
  split; [exact Hc |].
  split; [exact (CreateAsset_then_ReadAsset Reference.atob Scenario.alice "asset2" "red"
                   7 100 Scenario.ledger1 _ Hc) |].
  vm_compute. reflexivity.
Defined.

(** C7 (what the code does). The owner of a record cannot transfer it:
    [TransferAsset] called by the identity that the record names as [Owner]
    throws a [TypeError], the ledger is left as it was, and [ReadAsset]
    still returns the record with its old owner. *)
Theorem TransferAsset_by_owner_throws
    (JSON_parse : string -> option json) (atob : string -> option string)
    (ctx : Context) (id newOwner : string) (l : Ledger)
    (stored : string) (fields : list (string * json)) (owner : string) :
  world l !! id = Some stored ->
  is_empty stored = false ->
  JSON_parse stored = Some (JObj fields) ->
  assoc "Owner" fields = Some (JStr owner) ->
  AssetTransferContract.GetSubmittingClientIdentity atob ctx = Fulfilled owner ->
  AssetTransferContract.TransferAsset JSON_parse atob ctx id newOwner l = (Throw TypeError, l) /\
  AssetTransferContract.ReadAsset ctx id l = (Ok stored, l).
Proof.
  intros Hs He Hp _ _. split; [| exact (ReadAsset_stored ctx l id stored Hs He)].
  exact (TransferAsset_stored_throws JSON_parse atob ctx id newOwner l stored (JObj fields)
           Hs He Hp).
Qed.

(** Alice owns [asset1] and tries to hand it to [bob]. *)
Lemma TransferAsset_by_owner_throws_witness :
  AssetTransferContract.TransferAsset Reference.JSON_parse Reference.atob Scenario.alice
      "asset1" "bob" Scenario.ledger1 = (Throw TypeError, Scenario.ledger1) /\
  AssetTransferContract.ReadAsset Scenario.alice "asset1" Scenario.ledger1
    = (Ok Scenario.asset1_record, Scenario.ledger1).
Proof.
  assert (Hs : world Scenario.ledger1 !! "asset1" = Some Scenario.asset1_record)
    by (vm_compute; reflexivity).
  assert (He : is_empty Scenario.asset1_record = false) by reflexivity.
  assert (Hp : Reference.JSON_parse Scenario.asset1_record = Some (JObj Scenario.asset1_fields))
    by (vm_compute; reflexivity).
  assert (Ho : assoc "Owner" Scenario.asset1_fields = Some (JStr "alice")) by reflexivity.
  assert (Hi : AssetTransferContract.GetSubmittingClientIdentity Reference.atob Scenario.alice
               = Fulfilled "alice") by (vm_compute; reflexivity).
  exact (TransferAsset_by_owner_throws Reference.JSON_parse Reference.atob Scenario.alice
           "asset1" "bob" Scenario.ledger1 Scenario.asset1_record Scenario.asset1_fields
           "alice" Hs He Hp Ho Hi).
Defined.

(** ** Private data in the events contract *)

Lemma set_field_fresh (name : string) (v : json) (fields : list (string * json)) :
  assoc name fields = None -> set_field name v fields = (fields ++ [(name, v)])%list.
Proof.
  induction fields as [| [k old] rest IH]; simpl; [reflexivity |].
  destruct (String.eqb k name); [discriminate |].
  intros H. now rewrite IH.
Qed.

Lemma assoc_app_fresh (name : string) (v : json) (fields : list (string * json)) :
  assoc name fields = None -> assoc name (fields ++ [(name, v)])%list = Some v.
Proof.
  induction fields as [| [k old] rest IH]; simpl.
  - now rewrite String.eqb_refl.
  - destruct (String.eqb k name); [discriminate | exact IH].
Qed.

Lemma Events_readState_stored
    (JSON_parse : string -> option json) (ctx : Context) (id : string) (l : Ledger)
    (stored : string) (asset : json) :
  world l !! id = Some stored ->
  is_empty stored = false ->
  JSON_parse stored = Some asset ->
  AssetTransferEvents.readState JSON_parse ctx id l = (Ok asset, l).
Proof.
  intros Hs He Hp. unfold AssetTransferEvents.readState, bind.
  rewrite (getState_stored _ _ _ Hs), He.
  unfold AssetTransferEvents.parse. now rewrite Hp.
Qed.

(** A caller of another organisation than the peer's gets a result in which
    the private store plays no part, on any ledger. *)
Lemma Events_ReadAsset_other_org
    (JSON_parse : string -> option json) (ctx : Context) (id : string) (l1 l2 : Ledger) :
  clientMSPID ctx <> peerMSPID ctx ->
  world l1 = world l2 ->
  fst (AssetTransferEvents.ReadAsset JSON_parse ctx id l1)
    = fst (AssetTransferEvents.ReadAsset JSON_parse ctx id l2).
Proof.
  intros Horg Hw.
  unfold AssetTransferEvents.ReadAsset, AssetTransferEvents.ReadAsset_asset,
    AssetTransferEvents.readState, AssetTransferEvents.addPrivateData,
    AssetTransferEvents.parse, bind, lift, getState, ret, throw.
  apply String.eqb_neq in Horg. rewrite Horg, Hw.
  repeat (case_match; simpl in *; simplify_eq; try reflexivity).
Qed.

(** C8 (as stated, refuted).  Dave, of the peer's organisation, creates
    [asset6] with transient properties that are not JSON; they are stored as
    they come.  The id then holds a record and a private entry, and
    [ReadAsset] by Alice, of the same organisation, does not return the
    record with the properties: it throws a [SyntaxError]. *)
Lemma ReadAsset_private_data_counterexample :
  exists l' : Ledger,
    AssetTransferEvents.CreateAsset Scenario.dave "asset6" "green" 3 "dave" 50
        Scenario.empty_ledger = (Ok tt, l') /\
    world l' !! "asset6"
      = Some (JSON_stringify
                (JObj [("ID", JStr "asset6"); ("Color", JStr "green"); ("Size", JNum 3);
                       ("Owner", JStr "dave"); ("AppraisedValue", JNum 50)])) /\
    private l' !! ("_implicit_org_Org1MSP", "asset6") = Some "salt=a94a8fe5" /\
    clientMSPID Scenario.alice = peerMSPID Scenario.alice /\
    AssetTransferEvents.ReadAsset Reference.JSON_parse Scenario.alice "asset6" l'
      = (Throw SyntaxError, l').
Proof.
  exists (snd (AssetTransferEvents.CreateAsset Scenario.dave "asset6" "green" 3 "dave" 50
                 Scenario.empty_ledger)).
  split; [vm_compute; reflexivity |].
  split; [vm_compute; reflexivity |].
  split; [vm_compute; reflexivity |].
  split; [reflexivity |].
  vm_compute. reflexivity.
Qed.

(** C8 (amended). For an id that holds an Asset record and a private entry
    that decodes as JSON, in the implicit collection of the peer's
    organisation, [ReadAsset] of the events contract returns the record
    with the decoded private properties added as [asset_properties] if and
    only if the caller's organisation is the peer's.  For a caller of
    another organisation the result is the public record alone, and it is
    the same whatever the private store holds. *)
Theorem ReadAsset_private_data_visibility
    (JSON_parse : string -> option json) (ctx : Context) (id : string) (l : Ledger)
    (stored : string) (fields : list (string * json)) (entry : string) (properties : json) :
  world l !! id = Some stored ->
  is_empty stored = false ->
  JSON_parse stored = Some (JObj fields) ->
  assoc "ID" fields = Some (JStr id) ->
  is_empty id = false ->
  assoc "asset_properties" fields = None ->
  private l !! (AssetTransferEvents.collection_of (peerMSPID ctx), id) = Some entry ->
  is_empty entry = false ->
  JSON_parse entry = Some properties ->
  exists result : list (string * json),
    AssetTransferEvents.ReadAsset JSON_parse ctx id l = (Ok (JSON_stringify (JObj result)), l) /\
    (assoc "asset_properties" result = Some properties <-> clientMSPID ctx = peerMSPID ctx) /\
    (clientMSPID ctx = peerMSPID ctx ->
       result = (fields ++ [("asset_properties", properties)])%list) /\
    (clientMSPID ctx <> peerMSPID ctx ->
       result = fields /\
       forall (private' : gmap (string * string) string),
         AssetTransferEvents.ReadAsset JSON_parse ctx id (mkLedger (world l) private' (event l))
           = (Ok (JSON_stringify (JObj fields)), mkLedger (world l) private' (event l))).
Proof.
  intros Hs He Hp Hid Hid' Hfresh Hpriv Hpe Hpp.
  destruct (String.eqb (clientMSPID ctx) (peerMSPID ctx)) eqn:Horg.
  - apply String.eqb_eq in Horg as Horg'.
    exists (fields ++ [("asset_properties", properties)])%list.
    split; [| split; [| split]].
    + unfold AssetTransferEvents.ReadAsset, AssetTransferEvents.ReadAsset_asset, bind.
      rewrite (Events_readState_stored JSON_parse ctx id l stored (JObj fields) Hs He Hp).
      simpl. rewrite Hid.
      unfold AssetTransferEvents.addPrivateData, bind. rewrite Horg. simpl. rewrite Hid'.
      unfold ret, getPrivateData. rewrite Hpriv. simpl. rewrite Hpe. simpl.
      unfold AssetTransferEvents.parse. rewrite Hpp. unfold ret, lift. simpl.
      now rewrite (set_field_fresh _ _ _ Hfresh).
    + split; [intros _; exact Horg' | intros _; now apply assoc_app_fresh].
    + reflexivity.
    + intros Hne. contradiction.
  - apply String.eqb_neq in Horg as Horg'.
    assert (Hread : forall private' : gmap (string * string) string,
      AssetTransferEvents.ReadAsset JSON_parse ctx id (mkLedger (world l) private' (event l))
        = (Ok (JSON_stringify (JObj fields)), mkLedger (world l) private' (event l))).
    { intros private'.
      unfold AssetTransferEvents.ReadAsset, AssetTransferEvents.ReadAsset_asset, bind.
      rewrite (Events_readState_stored JSON_parse ctx id
                 (mkLedger (world l) private' (event l)) stored (JObj fields) Hs He Hp).
      simpl. rewrite Hid.
      unfold AssetTransferEvents.addPrivateData. now rewrite Horg. }
    exists fields. split; [| split; [| split]].
    + specialize (Hread (private l)). now destruct l.
    + split; [intros H; congruence | intros H; contradiction].
    + intros Heq. contradiction.
    + intros _. split; [reflexivity | exact Hread].
Qed.

(** Alice, of the peer's organisation, and Bob, of another, read [asset1]. *)
Lemma ReadAsset_private_data_visibility_witness :
  AssetTransferEvents.ReadAsset Reference.JSON_parse Scenario.alice "asset1" Scenario.ledger1
    = (Ok (JSON_stringify
             (JObj (Scenario.asset1_fields
                      ++ [("asset_properties", Scenario.asset1_properties)])%list)),
       Scenario.ledger1) /\
  AssetTransferEvents.ReadAsset Reference.JSON_parse Scenario.bob "asset1" Scenario.ledger1
    = (Ok (JSON_stringify (JObj Scenario.asset1_fields)), Scenario.ledger1).
Proof.
  assert (Hs : world Scenario.ledger1 !! "asset1" = Some Scenario.asset1_record)
    by (vm_compute; reflexivity).
  assert (He : is_empty Scenario.asset1_record = false) by reflexivity.
  assert (Hp : Reference.JSON_parse Scenario.asset1_record = Some (JObj Scenario.asset1_fields))
    by (vm_compute; reflexivity).
  assert (Hid : assoc "ID" Scenario.asset1_fields = Some (JStr "asset1")) by reflexivity.
  assert (Hid' : is_empty "asset1" = false) by reflexivity.
  assert (Hfresh : assoc "asset_properties" Scenario.asset1_fields = None) by reflexivity.
  assert (Hpriv : private Scenario.ledger1 !! ("_implicit_org_Org1MSP", "asset1")
                  = Some (JSON_stringify Scenario.asset1_properties))
    by (vm_compute; reflexivity).
  assert (Hpe : is_empty (JSON_stringify Scenario.asset1_properties) = false) by reflexivity.
  assert (Hpp : Reference.JSON_parse (JSON_stringify Scenario.asset1_properties)
                = Some Scenario.asset1_properties) by (vm_compute; reflexivity).
  split.
  - destruct (ReadAsset_private_data_visibility Reference.JSON_parse Scenario.alice "asset1"
                Scenario.ledger1 _ _ _ _ Hs He Hp Hid Hid' Hfresh Hpriv Hpe Hpp)
      as (result & Hread & _ & Hsame & _).
    rewrite Hread, (Hsame eq_refl). reflexivity.
  - destruct (ReadAsset_private_data_visibility Reference.JSON_parse Scenario.bob "asset1"
                Scenario.ledger1 _ _ _ _ Hs He Hp Hid Hid' Hfresh Hpriv Hpe Hpp)
      as (result & Hread & _ & _ & Hother).
    assert (Hne : clientMSPID Scenario.bob <> peerMSPID Scenario.bob)
      by (vm_compute; discriminate).
    rewrite Hread, (proj1 (Hother Hne)). reflexivity.
Defined.

(** ** The events contract has no ownership check *)

Lemma Events_savePrivateData_world
    (ctx : Context) (assetKey : string) (l : Ledger) :
  exists l', AssetTransferEvents.savePrivateData ctx assetKey l = (Ok tt, l') /\
             world l' = world l.
Proof.
  unfold AssetTransferEvents.savePrivateData.
  destruct (String.eqb (clientMSPID ctx) (peerMSPID ctx));
    [destruct (transient ctx !! "asset_properties") |]; eexists; split; reflexivity.
Qed.

(** [TransferAsset] of the events contract succeeds for every caller on a
    record that decodes to an object, and stores the record with [Owner]
    set to the new owner. *)
Lemma Events_TransferAsset_sets_owner
    (JSON_parse : string -> option json) (ctx : Context) (id newOwner : string) (l : Ledger)
    (stored : string) (fields : list (string * json)) :
  world l !! id = Some stored ->
  is_empty stored = false ->
  JSON_parse stored = Some (JObj fields) ->
  exists l',
    AssetTransferEvents.TransferAsset JSON_parse ctx id newOwner l = (Ok tt, l') /\
    world l' !! id = Some (JSON_stringify (JObj (set_field "Owner" (JStr newOwner) fields))).
Proof.
  intros Hs He Hp. unfold AssetTransferEvents.TransferAsset, bind.
  rewrite (Events_readState_stored JSON_parse ctx id l stored (JObj fields) Hs He Hp). simpl.
  destruct (Events_savePrivateData_world ctx id l) as (l1 & -> & Hw).
  eexists. split; [reflexivity |]. simpl. apply lookup_insert_eq.
Qed.

(** Bob, who does not own [asset1], hands it to himself; the record then
    reads back with [bob] as its owner, for Bob and for Alice alike. *)
Example Events_TransferAsset_by_stranger :
  exists l',
    AssetTransferEvents.TransferAsset Reference.JSON_parse Scenario.bob "asset1" "bob"
        Scenario.ledger1 = (Ok tt, l') /\
    AssetTransferEvents.ReadAsset Reference.JSON_parse Scenario.bob "asset1" l'
      = (Ok (JSON_stringify (JObj [("ID", JStr "asset1"); ("Color", JStr "blue");
                                   ("Size", JNum 5); ("Owner", JStr "bob");
                                   ("AppraisedValue", JNum 300)])), l').
Proof.
  exists (snd (AssetTransferEvents.TransferAsset Reference.JSON_parse Scenario.bob
                 "asset1" "bob" Scenario.ledger1)).
  split; vm_compute; reflexivity.
Qed.

(** Alice creates [asset2] on an empty ledger and then tries to hand it
    over, and to update and delete it: each call throws a [TypeError] and
    the ledger stays as her [CreateAsset] left it. *)
Example creator_cannot_change_own_asset :
  exists l',
    AssetTransferContract.CreateAsset Reference.atob Scenario.alice "asset2" "red" 7 100
        Scenario.empty_ledger = (Ok tt, l') /\
    AssetTransferContract.TransferAsset Reference.JSON_parse Reference.atob Scenario.alice
        "asset2" "bob" l' = (Throw TypeError, l') /\
    AssetTransferContract.UpdateAsset Reference.JSON_parse Reference.atob Scenario.alice
        "asset2" "green" 8 200 l' = (Throw TypeError, l') /\
    AssetTransferContract.DeleteAsset Reference.JSON_parse Reference.atob Scenario.alice
        "asset2" l' = (Throw TypeError, l').
Proof.
  exists (snd (AssetTransferContract.CreateAsset Reference.atob Scenario.alice "asset2" "red"
                 7 100 Scenario.empty_ledger)).
  repeat split; vm_compute; reflexivity.
Qed.

(** Bob calls the same operations on the asset that Alice has created. *)
Example stranger_gets_TypeError_on_created_asset :
  exists l',
    AssetTransferContract.CreateAsset Reference.atob Scenario.alice "asset2" "red" 7 100
        Scenario.empty_ledger = (Ok tt, l') /\
    AssetTransferContract.TransferAsset Reference.JSON_parse Reference.atob Scenario.bob
        "asset2" "bob" l' = (Throw TypeError, l') /\
    AssetTransferContract.UpdateAsset Reference.JSON_parse Reference.atob Scenario.bob
        "asset2" "green" 8 200 l' = (Throw TypeError, l') /\
    AssetTransferContract.DeleteAsset Reference.JSON_parse Reference.atob Scenario.bob
        "asset2" l' = (Throw TypeError, l').
Proof.
  exists (snd (AssetTransferContract.CreateAsset Reference.atob Scenario.alice "asset2" "red"
                 7 100 Scenario.empty_ledger)).
  repeat split; vm_compute; reflexivity.
Qed.

(** ** Further properties of the access-controlled contract *)

(** X1. What [UpdateAsset], [DeleteAsset] and [TransferAsset] answer is
    decided by the payload stored under the id alone, whatever the caller
    and the other arguments: the not-found error when nothing (or an empty
    payload) is stored, a [SyntaxError] when the payload is not JSON, a
    [TypeError] when it is.  In each case the ledger is left as it was. *)
Theorem mutators_outcome
    (JSON_parse : string -> option json) (atob : string -> option string)
    (ctx : Context) (id color newOwner : string) (size appraisedValue : Z) (l : Ledger) :
  let payload := default EmptyString (world l !! id) in
  let e := if is_empty payload then NotFound id
           else match JSON_parse payload with
                | None => SyntaxError
                | Some _ => TypeError
                end in
  AssetTransferContract.UpdateAsset JSON_parse atob ctx id color size appraisedValue l
    = (Throw e, l) /\
  AssetTransferContract.DeleteAsset JSON_parse atob ctx id l = (Throw e, l) /\
  AssetTransferContract.TransferAsset JSON_parse atob ctx id newOwner l = (Throw e, l).
Proof.
  unfold AssetTransferContract.UpdateAsset, AssetTransferContract.DeleteAsset,
    AssetTransferContract.TransferAsset, AssetTransferContract.AssetExists,
    AssetTransferContract.ReadAsset, AssetTransferContract.parse,
    bind, lift, getState, ret, throw.
  simpl. destruct (is_empty (default EmptyString (world l !! id))) eqn:He; simpl.
  - auto.
  - rewrite He. destruct (JSON_parse (default EmptyString (world l !! id))); simpl.
    + rewrite call_member_throws. auto.
    + auto.
Qed.

Lemma submit_keeps_records
    (JSON_parse : string -> option json) (atob : string -> option string)
    (ctx : Context) (tx : transaction) (l : Ledger) (key stored : string) :
  world l !! key = Some stored ->
  is_empty stored = false ->
  world (submit JSON_parse atob ctx tx l) !! key = Some stored.
Proof.
  intros Hs He.
  destruct tx as [id color size v | id | id color size v | id | id | id newOwner |]; simpl.
  - destruct (AssetTransferContract.CreateAsset atob ctx id color size v l)
      as [[[] | e] l'] eqn:Hc; simpl.
    + apply CreateAsset_success_inv in Hc as (_ & Hempty & ->). simpl.
      destruct (decide (id = key)) as [-> | Hne].
      * rewrite Hs in Hempty. simpl in Hempty. congruence.
      * now rewrite lookup_insert_ne.
    + revert Hc. unfold AssetTransferContract.CreateAsset, AssetTransferContract.AssetExists,
        bind, getState, ret, throw, putState.
      destruct (assertAttributeValue ctx "abac.creator" "true"); simpl;
        [| intros [= _ <-]; exact Hs].
      destruct (is_empty (default EmptyString (world l !! id))); simpl;
        [discriminate | intros [= _ <-]; exact Hs].
  - unfold AssetTransferContract.ReadAsset, bind, getState, throw, ret.
    destruct (is_empty (default EmptyString (world l !! id))); exact Hs.
  - destruct (mutations_never_succeed JSON_parse atob ctx id color id size v l)
      as ((e & -> & _) & _). exact Hs.
  - destruct (mutations_never_succeed JSON_parse atob ctx id id id 0 0 l)
      as (_ & (e & -> & _) & _). exact Hs.
  - exact Hs.
  - destruct (mutations_never_succeed JSON_parse atob ctx id id newOwner 0 0 l)
      as (_ & _ & (e & -> & _)). exact Hs.
  - exact Hs.
Qed.

Lemma submit_keeps_private_and_event
    (JSON_parse : string -> option json) (atob : string -> option string)
    (ctx : Context) (tx : transaction) (l : Ledger) :
  private (submit JSON_parse atob ctx tx l) = private l /\
  event (submit JSON_parse atob ctx tx l) = event l.
Proof.
  destruct tx as [id color size v | id | id color size v | id | id | id newOwner |]; simpl.
  - unfold AssetTransferContract.CreateAsset, AssetTransferContract.AssetExists,
      bind, getState, ret, throw, putState.
    destruct (assertAttributeValue ctx "abac.creator" "true"); simpl; [| auto].
    destruct (is_empty (default EmptyString (world l !! id))); simpl; auto.
  - unfold AssetTransferContract.ReadAsset, bind, getState, throw, ret.
    destruct (is_empty (default EmptyString (world l !! id))); auto.
  - destruct (mutations_never_succeed JSON_parse atob ctx id color id size v l)
      as ((e & -> & _) & _). auto.
  - destruct (mutations_never_succeed JSON_parse atob ctx id id id 0 0 l)
      as (_ & (e & -> & _) & _). auto.
  - auto.
  - destruct (mutations_never_succeed JSON_parse atob ctx id id newOwner 0 0 l)
      as (_ & _ & (e & -> & _)). auto.
  - auto.
Qed.

(** X2. Through the access-controlled contract a record, once stored, is
    final: after any sequence of its transactions, by any callers, every
    key that held a (non-empty) record still holds the same bytes, and the
    private store and the pending event are untouched.  The contract only
    ever adds records. *)
Theorem stored_records_are_final
    (JSON_parse : string -> option json) (atob : string -> option string)
    (txs : list (Context * transaction)) (l : Ledger) :
  (forall key stored : string,
     world l !! key = Some stored ->
     is_empty stored = false ->
     world (submit_all JSON_parse atob txs l) !! key = Some stored) /\
  private (submit_all JSON_parse atob txs l) = private l /\
  event (submit_all JSON_parse atob txs l) = event l.
Proof.
  revert l. induction txs as [| [ctx tx] rest IH]; intros l; simpl.
  - auto.
  - destruct (IH (submit JSON_parse atob ctx tx l)) as (Hw & Hp & He).
    destruct (submit_keeps_private_and_event JSON_parse atob ctx tx l) as [Hp' He'].
    split; [| split; congruence].
    intros key stored Hs Hne. apply Hw; [| exact Hne].
    now apply submit_keeps_records.
Qed.

(** Alice's record survives Bob's and her own attempts to change it. *)
Lemma stored_records_are_final_witness :
  world (submit_all Reference.JSON_parse Reference.atob
           [(Scenario.bob, CallDeleteAsset "asset1");
            (Scenario.alice, CallTransferAsset "asset1" "bob");
            (Scenario.alice, CallCreateAsset "asset1" "red" 7 100);
            (Scenario.alice, CallCreateAsset "asset2" "red" 7 100);
            (Scenario.alice, CallUpdateAsset "asset1" "green" 8 200)]
           Scenario.ledger1) !! "asset1"
    = Some Scenario.asset1_record.
Proof.
  apply (proj1 (stored_records_are_final Reference.JSON_parse Reference.atob _
                  Scenario.ledger1)).
  - vm_compute. reflexivity.
  - reflexivity.
Defined.

(** X3. An authorised caller's [CreateAsset] on a free id succeeds, whatever
    [getID()] returns, and adds exactly one record: the id then holds the
    serialised asset, every other key holds what it held, the world state
    has one key more, and the private store and the pending event are
    untouched. *)
Theorem CreateAsset_adds_one_record
    (atob : string -> option string) (ctx : Context) (id color : string)
    (size appraisedValue : Z) (l : Ledger) :
  attrs ctx !! "abac.creator" = Some "true" ->
  world l !! id = None ->
  exists l' : Ledger,
    AssetTransferContract.CreateAsset atob ctx id color size appraisedValue l = (Ok tt, l') /\
    world l' !! id
      = Some (JSON_stringify (JObj [("ID", JStr id); ("Color", JStr color);
                                    ("Size", JNum size); ("Owner", JObj []);
                                    ("AppraisedValue", JNum appraisedValue)])) /\
    (forall key : string, key <> id -> world l' !! key = world l !! key) /\
    base.size (world l') = S (base.size (world l)) /\
    private l' = private l /\
    event l' = event l.
Proof.
  intros Hattr Habs.
  destruct (CreateAsset_succeeds atob ctx id color size appraisedValue l Hattr Habs)
    as [l' Hc].
  exists l'. split; [exact Hc |].
  apply CreateAsset_success_inv in Hc as (_ & _ & ->). simpl.
  split; [apply lookup_insert_eq |].
  split; [intros key Hne; now apply lookup_insert_ne |].
  split; [now apply map_size_insert_None | auto].
Qed.

(** A creator whose [getID()] is [null] creates [asset2]. *)
Lemma CreateAsset_adds_one_record_witness :
  exists l' : Ledger,
    AssetTransferContract.CreateAsset Reference.atob
        (mkContext (<["abac.creator" := "true"]> ∅) None "Org1MSP" "Org1MSP" ∅)
        "asset2" "red" 7 100 Scenario.ledger1 = (Ok tt, l') /\
    size (world l') = 2 /\
    world l' !! "asset1" = Some Scenario.asset1_record.
Proof.
  destruct (CreateAsset_adds_one_record Reference.atob
              (mkContext (<["abac.creator" := "true"]> ∅) None "Org1MSP" "Org1MSP" ∅)
              "asset2" "red" 7 100 Scenario.ledger1)
    as (l' & Hc & _ & Hother & Hsize & _).
  - vm_compute. reflexivity.
  - vm_compute. reflexivity.
  - exists l'. split; [exact Hc |]. split.
    + rewrite Hsize. vm_compute. reflexivity.
    + rewrite Hother by discriminate. vm_compute. reflexivity.
Defined.

(** X4. [AssetExists] and [ReadAsset] agree: [AssetExists] never fails, and
    it answers [true] exactly when [ReadAsset] returns, which it does with
    the stored bytes as they are, decodable or not. *)
Theorem AssetExists_iff_ReadAsset_returns (ctx : Context) (id : string) (l : Ledger) :
  exists b : bool,
    AssetTransferContract.AssetExists ctx id l = (Ok b, l) /\
    (b = true <->
       exists text : string, AssetTransferContract.ReadAsset ctx id l = (Ok text, l)) /\
    (forall text : string,
       AssetTransferContract.ReadAsset ctx id l = (Ok text, l) ->
       world l !! id = Some text).
Proof.
  unfold AssetTransferContract.AssetExists, AssetTransferContract.ReadAsset,
    bind, getState, ret, throw.
  destruct (world l !! id) as [stored |] eqn:Hs; simpl.
  - destruct (is_empty stored) eqn:He; simpl; eexists; (split; [reflexivity |]); split.
    + split; [discriminate | intros [text H]; discriminate].
    + intros text H. discriminate.
    + split; [intros _; eexists; reflexivity | reflexivity].
    + intros text [= ->]. reflexivity.
  - exists false. split; [reflexivity |]. split.
    + split; [discriminate | intros [text H]; discriminate].
    + intros text H. discriminate.
Qed.

(** X5. After a successful [CreateAsset], the listing of [GetAllAssets]
    holds an entry for the new id, whose [Record] is the stored asset as
    [JSON.parse] decodes it (or its text), next to the entries of all the
    records that were there before. *)
Theorem GetAllAssets_after_CreateAsset
    (JSON_parse : string -> option json) (atob : string -> option string)
    (ctx reader : Context) (id color : string) (size appraisedValue : Z) (l l' : Ledger) :
  AssetTransferContract.CreateAsset atob ctx id color size appraisedValue l = (Ok tt, l') ->
  exists entries : list json,
    AssetTransferContract.GetAllAssets JSON_parse reader l'
      = (Ok (JSON_stringify (JArr entries)), l') /\
    listing_entry JSON_parse
      (id, JSON_stringify (JObj [("ID", JStr id); ("Color", JStr color);
                                 ("Size", JNum size); ("Owner", JObj []);
                                 ("AppraisedValue", JNum appraisedValue)])) ∈ entries /\
    (forall key stored : string,
       world l !! key = Some stored -> key <> id ->
       listing_entry JSON_parse (key, stored) ∈ entries).
Proof.
  intros Hc. apply CreateAsset_success_inv in Hc as (_ & _ & ->).
  eexists. split; [| split].
  - unfold AssetTransferContract.GetAllAssets. rewrite GetAllAssets_loop_spec. reflexivity.
  - simpl app. apply list_elem_of_fmap_2. apply getStateByRange_complete. simpl.
    apply lookup_insert_eq.
  - intros key stored Hs Hne. simpl app. apply list_elem_of_fmap_2.
    apply getStateByRange_complete. simpl. now rewrite lookup_insert_ne.
Qed.

Lemma GetAllAssets_after_CreateAsset_witness :
  exists (l' : Ledger) (entries : list json),
    AssetTransferContract.CreateAsset Reference.atob Scenario.alice "asset2" "red" 7 100
        Scenario.ledger1 = (Ok tt, l') /\
    AssetTransferContract.GetAllAssets Reference.JSON_parse Scenario.bob l'
      = (Ok (JSON_stringify (JArr entries)), l') /\
    JObj [("Key", JStr "asset2");
          ("Record", JObj [("ID", JStr "asset2"); ("Color", JStr "red"); ("Size", JNum 7);
                           ("Owner", JObj []); ("AppraisedValue", JNum 100)])] ∈ entries.
Proof.
  assert (Hc : AssetTransferContract.CreateAsset Reference.atob Scenario.alice "asset2" "red"
                 7 100 Scenario.ledger1
               = (Ok tt, snd (AssetTransferContract.CreateAsset Reference.atob Scenario.alice
                                "asset2" "red" 7 100 Scenario.ledger1)))
    by (vm_compute; reflexivity).
  destruct (GetAllAssets_after_CreateAsset Reference.JSON_parse Reference.atob
              Scenario.alice Scenario.bob "asset2" "red" 7 100 Scenario.ledger1 _ Hc)
    as (entries & Hlist & Hnew & _).
  eexists. exists entries. split; [exact Hc |]. split; [exact Hlist |].
  exact Hnew.
Defined.

(** ** Further properties of the events contract *)

Lemma assoc_set_field_eq (name : string) (v : json) (fields : list (string * json)) :
  assoc name (set_field name v fields) = Some v.
Proof.
  induction fields as [| [k old] rest IH]; simpl.
  - now rewrite String.eqb_refl.
  - destruct (String.eqb k name) eqn:Hk; simpl; rewrite Hk; [reflexivity | exact IH].
Qed.

Lemma assoc_set_field_ne (other name : string) (v : json) (fields : list (string * json)) :
  other <> name -> assoc other (set_field name v fields) = assoc other fields.
Proof.
  intros Hne. induction fields as [| [k old] rest IH]; simpl.
  - destruct (String.eqb name other) eqn:Hk; [| reflexivity].
    apply String.eqb_eq in Hk. congruence.
  - destruct (String.eqb k name) eqn:Hk; simpl.
    + apply String.eqb_eq in Hk as ->.
      destruct (String.eqb name other) eqn:Hk'; [| reflexivity].
      apply String.eqb_eq in Hk'. congruence.
    + now rewrite IH.
Qed.

Lemma Events_savePrivateData_effect (ctx : Context) (assetKey : string) (l : Ledger) :
  exists l1 : Ledger,
    AssetTransferEvents.savePrivateData ctx assetKey l = (Ok tt, l1) /\
    world l1 = world l /\
    event l1 = event l /\
    (clientMSPID ctx <> peerMSPID ctx -> private l1 = private l) /\
    (transient ctx !! "asset_properties" = None -> private l1 = private l) /\
    (forall properties : string,
       clientMSPID ctx = peerMSPID ctx ->
       transient ctx !! "asset_properties" = Some properties ->
       private l1
         = <[(AssetTransferEvents.collection_of (peerMSPID ctx), assetKey) := properties]>
             (private l)).
Proof.
  unfold AssetTransferEvents.savePrivateData.
  destruct (String.eqb (clientMSPID ctx) (peerMSPID ctx)) eqn:Horg.
  - destruct (transient ctx !! "asset_properties") as [p |] eqn:Ht.
    + eexists. split; [reflexivity |]. simpl. repeat split; try congruence.
      apply String.eqb_eq in Horg. congruence.
    + exists l. repeat split; congruence.
  - exists l. apply String.eqb_neq in Horg. repeat split; congruence.
Qed.

(** X6. On an id whose payload cannot be read, the four operations of the
    events contract that start with [readState] fail alike and leave the
    whole ledger as it was: with the not-found error when nothing (or an
    empty payload) is stored, with a [SyntaxError] when the payload is not
    JSON.  No private data is saved and no event is set before the failure. *)
Theorem Events_unreadable_record
    (JSON_parse : string -> option json) (ctx : Context)
    (id newOwner color owner : string) (size appraisedValue : Z) (l : Ledger) :
  is_empty (default EmptyString (world l !! id)) = true \/
    JSON_parse (default EmptyString (world l !! id)) = None ->
  let e := if is_empty (default EmptyString (world l !! id)) then NotFound id
           else SyntaxError in
  AssetTransferEvents.ReadAsset JSON_parse ctx id l = (Throw e, l) /\
  AssetTransferEvents.TransferAsset JSON_parse ctx id newOwner l = (Throw e, l) /\
  AssetTransferEvents.UpdateAsset JSON_parse ctx id color size owner appraisedValue l
    = (Throw e, l) /\
  AssetTransferEvents.DeleteAsset JSON_parse ctx id l = (Throw e, l).
Proof.
  intros H.
  unfold AssetTransferEvents.ReadAsset, AssetTransferEvents.ReadAsset_asset,
    AssetTransferEvents.TransferAsset, AssetTransferEvents.UpdateAsset,
    AssetTransferEvents.DeleteAsset, AssetTransferEvents.readState,
    AssetTransferEvents.parse, bind, getState, throw, ret.
  simpl.
  destruct (is_empty (default EmptyString (world l !! id))) eqn:He; simpl; [auto |].
  destruct H as [H | H]; [discriminate |]. rewrite H. auto.
Qed.

Lemma Events_unreadable_record_witness :
  AssetTransferEvents.ReadAsset Reference.JSON_parse Scenario.alice "asset2"
      Scenario.ledger_mixed = (Throw SyntaxError, Scenario.ledger_mixed) /\
  AssetTransferEvents.DeleteAsset Reference.JSON_parse Scenario.alice "asset2"
      Scenario.ledger_mixed = (Throw SyntaxError, Scenario.ledger_mixed) /\
  AssetTransferEvents.TransferAsset Reference.JSON_parse Scenario.alice "asset9" "bob"
      Scenario.ledger_mixed = (Throw (NotFound "asset9"), Scenario.ledger_mixed).
Proof.
  split; [| split].
  - apply (Events_unreadable_record Reference.JSON_parse Scenario.alice "asset2" "bob"
             "red" "bob" 7 100 Scenario.ledger_mixed).
    right. vm_compute. reflexivity.
  - apply (Events_unreadable_record Reference.JSON_parse Scenario.alice "asset2" "bob"
             "red" "bob" 7 100 Scenario.ledger_mixed).
    right. vm_compute. reflexivity.
  - apply (Events_unreadable_record Reference.JSON_parse Scenario.alice "asset9" "bob"
             "red" "bob" 7 100 Scenario.ledger_mixed).
    left. vm_compute. reflexivity.
Defined.

Lemma Events_TransferAsset_inv
    (JSON_parse : string -> option json) (ctx : Context) (id newOwner : string)
    (l l' : Ledger) :
  AssetTransferEvents.TransferAsset JSON_parse ctx id newOwner l = (Ok tt, l') ->
  exists (asset asset' : json) (l1 : Ledger),
    is_empty (default EmptyString (world l !! id)) = false /\
    JSON_parse (default EmptyString (world l !! id)) = Some asset /\
    set_member asset "Owner" (JStr newOwner) = Ok asset' /\
    AssetTransferEvents.savePrivateData ctx id l = (Ok tt, l1) /\
    l' = mkLedger (<[id := JSON_stringify asset']> (world l1)) (private l1)
           (Some ("TransferAsset", JSON_stringify asset')).
Proof.
  unfold AssetTransferEvents.TransferAsset, AssetTransferEvents.readState,
    AssetTransferEvents.parse, bind, lift, getState, throw, ret.
  destruct (is_empty (default EmptyString (world l !! id))) eqn:He; simpl; [discriminate |].
  destruct (JSON_parse (default EmptyString (world l !! id))) as [asset |] eqn:Hp; simpl;
    [| discriminate].
  destruct (set_member asset "Owner" (JStr newOwner)) as [asset' | e] eqn:Hset; simpl;
    [| discriminate].
  destruct (Events_savePrivateData_effect ctx id l) as (l1 & Hsave & _).
  rewrite Hsave. simpl. intros [= <-].
  exists asset, asset', l1. auto.
Qed.

Lemma Events_UpdateAsset_inv
    (JSON_parse : string -> option json) (ctx : Context) (id color owner : string)
    (size appraisedValue : Z) (l l' : Ledger) :
  AssetTransferEvents.UpdateAsset JSON_parse ctx id color size owner appraisedValue l
    = (Ok tt, l') ->
  exists (asset a1 a2 a3 a4 : json) (l1 : Ledger),
    is_empty (default EmptyString (world l !! id)) = false /\
    JSON_parse (default EmptyString (world l !! id)) = Some asset /\
    set_member asset "Color" (JStr color) = Ok a1 /\
    set_member a1 "Size" (JNum size) = Ok a2 /\
    set_member a2 "Owner" (JStr owner) = Ok a3 /\
    set_member a3 "AppraisedValue" (JNum appraisedValue) = Ok a4 /\
    AssetTransferEvents.savePrivateData ctx id l = (Ok tt, l1) /\
    l' = mkLedger (<[id := JSON_stringify a4]> (world l1)) (private l1)
           (Some ("UpdateAsset", JSON_stringify a4)).
Proof.
  unfold AssetTransferEvents.UpdateAsset, AssetTransferEvents.readState,
    AssetTransferEvents.parse, bind, lift, getState, throw, ret.
  destruct (is_empty (default EmptyString (world l !! id))) eqn:He; simpl; [discriminate |].
  destruct (JSON_parse (default EmptyString (world l !! id))) as [asset |] eqn:Hp; simpl;
    [| discriminate].
  destruct (set_member asset "Color" (JStr color)) as [a1 | e] eqn:H1; simpl;
    [| discriminate].
  destruct (set_member a1 "Size" (JNum size)) as [a2 | e] eqn:H2; simpl; [| discriminate].
  destruct (set_member a2 "Owner" (JStr owner)) as [a3 | e] eqn:H3; simpl; [| discriminate].
  destruct (set_member a3 "AppraisedValue" (JNum appraisedValue)) as [a4 | e] eqn:H4; simpl;
    [| discriminate].
  destruct (Events_savePrivateData_effect ctx id l) as (l1 & Hsave & _).
  rewrite Hsave. simpl. intros [= <-].
  exists asset, a1, a2, a3, a4, l1. repeat split; auto.
Qed.

(** X7. Whenever [CreateAsset], [TransferAsset] or [UpdateAsset] of the
    events contract succeeds, the event it has set bears its own name and
    carries exactly the bytes it has written under the id; the other keys
    of the world state are as before. *)
Theorem Events_event_carries_written_bytes
    (JSON_parse : string -> option json) (ctx : Context)
    (id newOwner color owner : string) (size appraisedValue : Z) (l l' : Ledger) :
  (AssetTransferEvents.CreateAsset ctx id color size owner appraisedValue l = (Ok tt, l') ->
     written_with_event "CreateAsset" id l l') /\
  (AssetTransferEvents.TransferAsset JSON_parse ctx id newOwner l = (Ok tt, l') ->
     written_with_event "TransferAsset" id l l') /\
  (AssetTransferEvents.UpdateAsset JSON_parse ctx id color size owner appraisedValue l
     = (Ok tt, l') ->
     written_with_event "UpdateAsset" id l l').
Proof.
  split; [| split].
  - unfold AssetTransferEvents.CreateAsset, bind.
    destruct (Events_savePrivateData_effect ctx id l) as (l1 & Hsave & Hw & _).
    rewrite Hsave. simpl. intros [= <-]. eexists. simpl. rewrite Hw. split; reflexivity.
  - intros H. apply Events_TransferAsset_inv in H
      as (asset & asset' & l1 & _ & _ & _ & Hsave & ->).
    destruct (Events_savePrivateData_effect ctx id l) as (l1' & Hsave' & Hw & _).
    rewrite Hsave in Hsave'. injection Hsave' as <-.
    eexists. simpl. rewrite Hw. split; reflexivity.
  - intros H. apply Events_UpdateAsset_inv in H
      as (asset & a1 & a2 & a3 & a4 & l1 & _ & _ & _ & _ & _ & _ & Hsave & ->).
    destruct (Events_savePrivateData_effect ctx id l) as (l1' & Hsave' & Hw & _).
    rewrite Hsave in Hsave'. injection Hsave' as <-.
    eexists. simpl. rewrite Hw. split; reflexivity.
Qed.

Lemma Events_event_carries_written_bytes_witness :
  written_with_event "TransferAsset" "asset1" Scenario.ledger1
    (snd (AssetTransferEvents.TransferAsset Reference.JSON_parse Scenario.bob "asset1" "bob"
            Scenario.ledger1)).
Proof.
  apply (proj1 (proj2 (Events_event_carries_written_bytes Reference.JSON_parse Scenario.bob
                         "asset1" "bob" "red" "bob" 7 100 Scenario.ledger1 _))).
  vm_compute. reflexivity.
Defined.

(** X8. A caller whose organisation is not the peer's never changes the
    private store: whatever [CreateAsset], [TransferAsset], [UpdateAsset]
    or [DeleteAsset] of the events contract does for such a caller, and
    whether it returns or throws, the private store after the call is the
    one before it. *)
Theorem Events_private_store_isolation
    (JSON_parse : string -> option json) (ctx : Context)
    (id newOwner color owner : string) (size appraisedValue : Z) (l : Ledger) :
  clientMSPID ctx <> peerMSPID ctx ->
  private (snd (AssetTransferEvents.CreateAsset ctx id color size owner appraisedValue l))
    = private l /\
  private (snd (AssetTransferEvents.TransferAsset JSON_parse ctx id newOwner l)) = private l /\
  private (snd (AssetTransferEvents.UpdateAsset JSON_parse ctx id color size owner
                  appraisedValue l)) = private l /\
  private (snd (AssetTransferEvents.DeleteAsset JSON_parse ctx id l)) = private l.
Proof.
  intros Horg. apply String.eqb_neq in Horg.
  unfold AssetTransferEvents.CreateAsset, AssetTransferEvents.TransferAsset,
    AssetTransferEvents.UpdateAsset, AssetTransferEvents.DeleteAsset,
    AssetTransferEvents.savePrivateData, AssetTransferEvents.removePrivateData,
    AssetTransferEvents.readState, AssetTransferEvents.parse,
    bind, lift, getState, throw, ret.
  rewrite Horg. simpl.
  repeat split; repeat (case_match; simpl in *; simplify_eq; try reflexivity).
Qed.

Lemma Events_private_store_isolation_witness :
  private (snd (AssetTransferEvents.DeleteAsset Reference.JSON_parse Scenario.bob "asset1"
                  Scenario.ledger1))
    = private Scenario.ledger1 /\
  world (snd (AssetTransferEvents.DeleteAsset Reference.JSON_parse Scenario.bob "asset1"
                Scenario.ledger1)) !! "asset1" = None.
Proof.
  split.
  - apply (Events_private_store_isolation Reference.JSON_parse Scenario.bob
             "asset1" "bob" "red" "bob" 7 100 Scenario.ledger1).
    vm_compute. discriminate.
  - vm_compute. reflexivity.
Defined.

Lemma Events_CreateAsset_same_org
    (ctx : Context) (id color owner properties : string) (size appraisedValue : Z)
    (l : Ledger) :
  clientMSPID ctx = peerMSPID ctx ->
  transient ctx !! "asset_properties" = Some properties ->
  AssetTransferEvents.CreateAsset ctx id color size owner appraisedValue l
    = (Ok tt,
       mkLedger
         (<[id := JSON_stringify (JObj [("ID", JStr id); ("Color", JStr color);
                                        ("Size", JNum size); ("Owner", JStr owner);
                                        ("AppraisedValue", JNum appraisedValue)])]> (world l))
         (<[(AssetTransferEvents.collection_of (peerMSPID ctx), id) := properties]> (private l))
         (Some ("CreateAsset",
                JSON_stringify (JObj [("ID", JStr id); ("Color", JStr color);
                                      ("Size", JNum size); ("Owner", JStr owner);
                                      ("AppraisedValue", JNum appraisedValue)])))).
Proof.
  intros Horg Ht. apply String.eqb_eq in Horg.
  unfold AssetTransferEvents.CreateAsset, AssetTransferEvents.savePrivateData, bind.
  rewrite Horg, Ht. reflexivity.
Qed.

Lemma Events_ReadAsset_other_org_stored
    (JSON_parse : string -> option json) (reader : Context) (id : string) (l : Ledger)
    (stored : string) (fields : list (string * json)) :
  clientMSPID reader <> peerMSPID reader ->
  world l !! id = Some stored ->
  is_empty stored = false ->
  JSON_parse stored = Some (JObj fields) ->
  AssetTransferEvents.ReadAsset JSON_parse reader id l
    = (Ok (JSON_stringify (JObj fields)), l).
Proof.
  intros Horg Hs He Hp. apply String.eqb_neq in Horg.
  unfold AssetTransferEvents.ReadAsset, AssetTransferEvents.ReadAsset_asset, bind.
  rewrite (Events_readState_stored JSON_parse reader id l stored (JObj fields) Hs He Hp).
  simpl. unfold AssetTransferEvents.addPrivateData. now rewrite Horg.
Qed.

(** X9. Round trip with private data.  A caller of the peer's organisation
    creates an asset and passes properties in the transient map; when the
    properties and the new record decode, [ReadAsset] by a caller of that
    organisation returns the record with the decoded properties appended as
    [asset_properties], and [ReadAsset] by a caller of another organisation
    returns the record with its five members alone. *)
Theorem Events_CreateAsset_then_ReadAsset
    (JSON_parse : string -> option json) (ctx reader stranger : Context)
    (id color owner properties : string) (size appraisedValue : Z)
    (decoded : json) (l : Ledger) :
  let fields := [("ID", JStr id); ("Color", JStr color); ("Size", JNum size);
                 ("Owner", JStr owner); ("AppraisedValue", JNum appraisedValue)] in
  clientMSPID ctx = peerMSPID ctx ->
  transient ctx !! "asset_properties" = Some properties ->
  is_empty properties = false ->
  is_empty id = false ->
  JSON_parse properties = Some decoded ->
  JSON_parse (JSON_stringify (JObj fields)) = Some (JObj fields) ->
  clientMSPID reader = peerMSPID reader ->
  peerMSPID reader = peerMSPID ctx ->
  clientMSPID stranger <> peerMSPID stranger ->
  exists l' : Ledger,
    AssetTransferEvents.CreateAsset ctx id color size owner appraisedValue l = (Ok tt, l') /\
    AssetTransferEvents.ReadAsset JSON_parse reader id l'
      = (Ok (JSON_stringify (JObj (fields ++ [("asset_properties", decoded)])%list)), l') /\
    AssetTransferEvents.ReadAsset JSON_parse stranger id l'
      = (Ok (JSON_stringify (JObj fields)), l').
Proof.
  intros fields Horg Ht Hpe Hid Hpp Hrt Hreader Hpeer Hstranger. subst fields.
  eexists. split; [exact (Events_CreateAsset_same_org ctx id color owner properties size
                            appraisedValue l Horg Ht) |].
  split.
  - unfold AssetTransferEvents.ReadAsset, AssetTransferEvents.ReadAsset_asset, bind.
    erewrite Events_readState_stored;
      [| simpl; apply lookup_insert_eq | reflexivity | exact Hrt].
    cbn [lift get_member assoc String.eqb Ascii.eqb Bool.eqb andb].
    unfold AssetTransferEvents.addPrivateData, bind.
    apply String.eqb_eq in Hreader. rewrite Hreader. simpl. rewrite Hid.
    unfold ret, getPrivateData. simpl. rewrite Hpeer, lookup_insert_eq. simpl. rewrite Hpe.
    simpl. unfold AssetTransferEvents.parse. rewrite Hpp. reflexivity.
  - eapply Events_ReadAsset_other_org_stored;
      [exact Hstranger | simpl; apply lookup_insert_eq | reflexivity | exact Hrt].
Qed.

(** X10. The transient properties are stored as they come.  When they are
    not JSON, the asset is created all the same, and from then on
    [ReadAsset] throws a [SyntaxError] for every caller of the peer's
    organisation, while callers of other organisations read the record. *)
Theorem Events_undecodable_properties_block_reads
    (JSON_parse : string -> option json) (ctx reader stranger : Context)
    (id color owner properties : string) (size appraisedValue : Z) (l : Ledger) :
  let fields := [("ID", JStr id); ("Color", JStr color); ("Size", JNum size);
                 ("Owner", JStr owner); ("AppraisedValue", JNum appraisedValue)] in
  clientMSPID ctx = peerMSPID ctx ->
  transient ctx !! "asset_properties" = Some properties ->
  is_empty properties = false ->
  is_empty id = false ->
  JSON_parse properties = None ->
  JSON_parse (JSON_stringify (JObj fields)) = Some (JObj fields) ->
  clientMSPID reader = peerMSPID reader ->
  peerMSPID reader = peerMSPID ctx ->
  clientMSPID stranger <> peerMSPID stranger ->
  exists l' : Ledger,
    AssetTransferEvents.CreateAsset ctx id color size owner appraisedValue l = (Ok tt, l') /\
    AssetTransferEvents.ReadAsset JSON_parse reader id l' = (Throw SyntaxError, l') /\
    AssetTransferEvents.ReadAsset JSON_parse stranger id l'
      = (Ok (JSON_stringify (JObj fields)), l').
Proof.
  intros fields Horg Ht Hpe Hid Hpp Hrt Hreader Hpeer Hstranger. subst fields.
  eexists. split; [exact (Events_CreateAsset_same_org ctx id color owner properties size
                            appraisedValue l Horg Ht) |].
  split.
  - unfold AssetTransferEvents.ReadAsset, AssetTransferEvents.ReadAsset_asset, bind.
    erewrite Events_readState_stored;
      [| simpl; apply lookup_insert_eq | reflexivity | exact Hrt].
    cbn [lift get_member assoc String.eqb Ascii.eqb Bool.eqb andb].
    unfold AssetTransferEvents.addPrivateData, bind.
    apply String.eqb_eq in Hreader. rewrite Hreader. simpl. rewrite Hid.
    unfold ret, getPrivateData. simpl. rewrite Hpeer, lookup_insert_eq. simpl. rewrite Hpe.
    simpl. unfold AssetTransferEvents.parse. rewrite Hpp. reflexivity.
  - eapply Events_ReadAsset_other_org_stored;
      [exact Hstranger | simpl; apply lookup_insert_eq | reflexivity | exact Hrt].
Qed.

Lemma Events_CreateAsset_then_ReadAsset_witness :
  exists l' : Ledger,
    AssetTransferEvents.CreateAsset Scenario.carol "asset5" "green" 3 "carol" 50
        Scenario.empty_ledger = (Ok tt, l') /\
    AssetTransferEvents.ReadAsset Reference.JSON_parse Scenario.alice "asset5" l'
      = (Ok (JSON_stringify
               (JObj [("ID", JStr "asset5"); ("Color", JStr "green"); ("Size", JNum 3);
                      ("Owner", JStr "carol"); ("AppraisedValue", JNum 50);
                      ("asset_properties", Scenario.asset1_properties)])), l') /\
    AssetTransferEvents.ReadAsset Reference.JSON_parse Scenario.bob "asset5" l'
      = (Ok (JSON_stringify
               (JObj [("ID", JStr "asset5"); ("Color", JStr "green"); ("Size", JNum 3);
                      ("Owner", JStr "carol"); ("AppraisedValue", JNum 50)])), l').
Proof.
  apply (Events_CreateAsset_then_ReadAsset Reference.JSON_parse Scenario.carol
           Scenario.alice Scenario.bob "asset5" "green" "carol"
           (JSON_stringify Scenario.asset1_properties) 3 50 Scenario.asset1_properties
           Scenario.empty_ledger);
    try (vm_compute; reflexivity).
  vm_compute. discriminate.
Defined.

Lemma Events_undecodable_properties_block_reads_witness :
  exists l' : Ledger,
    AssetTransferEvents.CreateAsset Scenario.dave "asset6" "green" 3 "dave" 50
        Scenario.empty_ledger = (Ok tt, l') /\
    AssetTransferEvents.ReadAsset Reference.JSON_parse Scenario.alice "asset6" l'
      = (Throw SyntaxError, l') /\
    AssetTransferEvents.ReadAsset Reference.JSON_parse Scenario.bob "asset6" l'
      = (Ok (JSON_stringify
               (JObj [("ID", JStr "asset6"); ("Color", JStr "green"); ("Size", JNum 3);
                      ("Owner", JStr "dave"); ("AppraisedValue", JNum 50)])), l').
Proof.
  apply (Events_undecodable_properties_block_reads Reference.JSON_parse Scenario.dave
           Scenario.alice Scenario.bob "asset6" "green" "dave" "salt=a94a8fe5" 3 50
           Scenario.empty_ledger);
    try (vm_compute; reflexivity).
  vm_compute. discriminate.
Defined.

Lemma Events_savePrivateData_frame (ctx : Context) (assetKey : string) (l : Ledger) :
  exists l1 : Ledger,
    AssetTransferEvents.savePrivateData ctx assetKey l = (Ok tt, l1) /\ world l1 = world l.
Proof.
  destruct (Events_savePrivateData_effect ctx assetKey l) as (l1 & H & Hw & _). eauto.
Qed.

(** X11. [TransferAsset] of the events contract asks nothing of the caller:
    on a record that decodes to an object it succeeds for every caller, and
    what it writes back is that object with [Owner] set to the new owner
    and every other member, [ID] among them, as it was.  No other key of
    the world state changes. *)
Theorem Events_TransferAsset_changes_owner_only
    (JSON_parse : string -> option json) (ctx : Context) (id newOwner : string) (l : Ledger)
    (stored : string) (fields : list (string * json)) :
  world l !! id = Some stored ->
  is_empty stored = false ->
  JSON_parse stored = Some (JObj fields) ->
  exists (l' : Ledger) (fields' : list (string * json)),
    AssetTransferEvents.TransferAsset JSON_parse ctx id newOwner l = (Ok tt, l') /\
    world l' !! id = Some (JSON_stringify (JObj fields')) /\
    assoc "Owner" fields' = Some (JStr newOwner) /\
    (forall name : string, name <> "Owner" -> assoc name fields' = assoc name fields) /\
    (forall key : string, key <> id -> world l' !! key = world l !! key).
Proof.
  intros Hs He Hp.
  destruct (Events_savePrivateData_frame ctx id l) as (l1 & Hsave & Hw).
  eexists. exists (set_field "Owner" (JStr newOwner) fields). split; [| split; [| split; [| split]]].
  - unfold AssetTransferEvents.TransferAsset, bind.
    rewrite (Events_readState_stored JSON_parse ctx id l stored (JObj fields) Hs He Hp).
    simpl. rewrite Hsave. reflexivity.
  - simpl. apply lookup_insert_eq.
  - apply assoc_set_field_eq.
  - intros name Hne. now apply assoc_set_field_ne.
  - intros key Hne. simpl. rewrite lookup_insert_ne by congruence. now rewrite Hw.
Qed.

Lemma Events_TransferAsset_changes_owner_only_witness :
  exists (l' : Ledger) (fields' : list (string * json)),
    AssetTransferEvents.TransferAsset Reference.JSON_parse Scenario.bob "asset1" "bob"
        Scenario.ledger1 = (Ok tt, l') /\
    world l' !! "asset1" = Some (JSON_stringify (JObj fields')) /\
    assoc "Owner" fields' = Some (JStr "bob") /\
    assoc "ID" fields' = Some (JStr "asset1").
Proof.
  destruct (Events_TransferAsset_changes_owner_only Reference.JSON_parse Scenario.bob
              "asset1" "bob" Scenario.ledger1 Scenario.asset1_record Scenario.asset1_fields)
    as (l' & fields' & Ht & Hw & Ho & Hrest & _).
  - vm_compute. reflexivity.
  - reflexivity.
  - vm_compute. reflexivity.
  - exists l', fields'. split; [exact Ht |]. split; [exact Hw |]. split; [exact Ho |].
    rewrite Hrest by discriminate. reflexivity.
Defined.

(** X12. [UpdateAsset] of the events contract, on a record that decodes to
    an object, succeeds for every caller and writes back that object with
    [Color], [Size], [Owner] and [AppraisedValue] set to its arguments;
    [ID] and any further member keep their values, and no other key of the
    world state changes. *)
Theorem Events_UpdateAsset_keeps_other_members
    (JSON_parse : string -> option json) (ctx : Context) (id color owner : string)
    (size appraisedValue : Z) (l : Ledger) (stored : string) (fields : list (string * json)) :
  world l !! id = Some stored ->
  is_empty stored = false ->
  JSON_parse stored = Some (JObj fields) ->
  exists (l' : Ledger) (fields' : list (string * json)),
    AssetTransferEvents.UpdateAsset JSON_parse ctx id color size owner appraisedValue l
      = (Ok tt, l') /\
    world l' !! id = Some (JSON_stringify (JObj fields')) /\
    assoc "Color" fields' = Some (JStr color) /\
    assoc "Size" fields' = Some (JNum size) /\
    assoc "Owner" fields' = Some (JStr owner) /\
    assoc "AppraisedValue" fields' = Some (JNum appraisedValue) /\
    (forall name : string,
       name <> "Color" -> name <> "Size" -> name <> "Owner" -> name <> "AppraisedValue" ->
       assoc name fields' = assoc name fields) /\
    (forall key : string, key <> id -> world l' !! key = world l !! key).
Proof.
  intros Hs He Hp.
  destruct (Events_savePrivateData_frame ctx id l) as (l1 & Hsave & Hw).
  eexists.
  exists (set_field "AppraisedValue" (JNum appraisedValue)
            (set_field "Owner" (JStr owner)
               (set_field "Size" (JNum size) (set_field "Color" (JStr color) fields)))).
  split; [| split].
  - unfold AssetTransferEvents.UpdateAsset, bind.
    rewrite (Events_readState_stored JSON_parse ctx id l stored (JObj fields) Hs He Hp).
    simpl. rewrite Hsave. reflexivity.
  - simpl. apply lookup_insert_eq.
  - repeat split.
    + rewrite !assoc_set_field_ne by discriminate. apply assoc_set_field_eq.
    + rewrite !assoc_set_field_ne by discriminate. apply assoc_set_field_eq.
    + rewrite !assoc_set_field_ne by discriminate. apply assoc_set_field_eq.
    + apply assoc_set_field_eq.
    + intros name H1 H2 H3 H4. now rewrite !assoc_set_field_ne.
    + intros key Hne. simpl. rewrite lookup_insert_ne by congruence. now rewrite Hw.
Qed.

Lemma Events_UpdateAsset_keeps_other_members_witness :
  exists (l' : Ledger) (fields' : list (string * json)),
    AssetTransferEvents.UpdateAsset Reference.JSON_parse Scenario.bob "asset1" "red" 9 "bob"
        1 Scenario.ledger1 = (Ok tt, l') /\
    world l' !! "asset1" = Some (JSON_stringify (JObj fields')) /\
    assoc "Owner" fields' = Some (JStr "bob") /\
    assoc "ID" fields' = Some (JStr "asset1").
Proof.
  destruct (Events_UpdateAsset_keeps_other_members Reference.JSON_parse Scenario.bob
              "asset1" "red" "bob" 9 1 Scenario.ledger1 Scenario.asset1_record
              Scenario.asset1_fields)
    as (l' & fields' & Hu & Hw & _ & _ & Ho & _ & Hrest & _).
  - vm_compute. reflexivity.
  - reflexivity.
  - vm_compute. reflexivity.
  - exists l', fields'. split; [exact Hu |]. split; [exact Hw |]. split; [exact Ho |].
    rewrite Hrest by discriminate. reflexivity.
Defined.

(** X13. [DeleteAsset] of the events contract, on a record that decodes (to
    any JSON value), succeeds for every caller: the key is removed from the
    world state and no other key changes, the event carries the record
    serialised again, and a [ReadAsset] that follows fails with the
    not-found error.  The private entry of the id is gone when the caller is
    of the peer's organisation, and is left in place when the caller is of
    another one. *)
Theorem Events_DeleteAsset_removes_record
    (JSON_parse : string -> option json) (ctx reader : Context) (id : string) (l : Ledger)
    (stored : string) (asset : json) :
  world l !! id = Some stored ->
  is_empty stored = false ->
  JSON_parse stored = Some asset ->
  exists l' : Ledger,
    AssetTransferEvents.DeleteAsset JSON_parse ctx id l = (Ok tt, l') /\
    world l' = delete id (world l) /\
    event l' = Some ("DeleteAsset", JSON_stringify asset) /\
    AssetTransferEvents.ReadAsset JSON_parse reader id l' = (Throw (NotFound id), l') /\
    (clientMSPID ctx = peerMSPID ctx ->
       is_empty (default EmptyString
                   (private l' !! (AssetTransferEvents.collection_of (peerMSPID ctx), id)))
         = true) /\
    (clientMSPID ctx <> peerMSPID ctx -> private l' = private l).
Proof.
  intros Hs He Hp.
  assert (Hread : forall l' : Ledger, world l' = delete id (world l) ->
            AssetTransferEvents.ReadAsset JSON_parse reader id l' = (Throw (NotFound id), l')).
  { intros l' Hw.
    unfold AssetTransferEvents.ReadAsset, AssetTransferEvents.ReadAsset_asset,
      AssetTransferEvents.readState, bind, getState.
    rewrite Hw, lookup_delete_eq. reflexivity. }
  unfold AssetTransferEvents.DeleteAsset, bind.
  rewrite (Events_readState_stored JSON_parse ctx id l stored asset Hs He Hp).
  unfold AssetTransferEvents.removePrivateData, bind, getPrivateData, ret.
  destruct (String.eqb (clientMSPID ctx) (peerMSPID ctx)) eqn:Horg.
  - simpl.
    destruct (is_empty (default EmptyString
                (private l !! (AssetTransferEvents.collection_of (peerMSPID ctx), id))))
      eqn:Hpriv; simpl;
      (eexists; split; [reflexivity |]); simpl;
      (split; [reflexivity |]); (split; [reflexivity |]);
      (split; [apply Hread; reflexivity |]); split.
    + intros _. exact Hpriv.
    + intros Hne. apply String.eqb_eq in Horg. contradiction.
    + intros _. now rewrite lookup_delete_eq.
    + intros Hne. apply String.eqb_eq in Horg. contradiction.
  - simpl. eexists. split; [reflexivity |]. simpl.
    split; [reflexivity |]. split; [reflexivity |].
    split; [apply Hread; reflexivity |]. split.
    + intros Heq. apply String.eqb_neq in Horg. contradiction.
    + reflexivity.
Qed.

(** Bob, of another organisation, deletes [asset1]: the public record goes,
    its private entry stays. *)
Lemma Events_DeleteAsset_removes_record_witness :
  exists l' : Ledger,
    AssetTransferEvents.DeleteAsset Reference.JSON_parse Scenario.bob "asset1" Scenario.ledger1
      = (Ok tt, l') /\
    AssetTransferEvents.ReadAsset Reference.JSON_parse Scenario.alice "asset1" l'
      = (Throw (NotFound "asset1"), l') /\
    private l' !! ("_implicit_org_Org1MSP", "asset1")
      = Some (JSON_stringify Scenario.asset1_properties).
Proof.
  destruct (Events_DeleteAsset_removes_record Reference.JSON_parse Scenario.bob
              Scenario.alice "asset1" Scenario.ledger1 Scenario.asset1_record
              (JObj Scenario.asset1_fields))
    as (l' & Hd & _ & _ & Hr & _ & Hpriv).
  - vm_compute. reflexivity.
  - reflexivity.
  - vm_compute. reflexivity.
  - exists l'. split; [exact Hd |]. split; [exact Hr |].
    rewrite Hpriv by (vm_compute; discriminate). vm_compute. reflexivity.
Defined.

(** X14. A stored payload that decodes to [null], a boolean, a number or a
    string cannot be transferred or updated: assigning a member to such a
    value throws a [TypeError], before any private data is saved, any event
    is set or anything is written. *)
Theorem Events_primitive_record_TypeError
    (JSON_parse : string -> option json) (ctx : Context) (id newOwner color owner : string)
    (size appraisedValue : Z) (l : Ledger) (stored : string) (asset : json) :
  world l !! id = Some stored ->
  is_empty stored = false ->
  JSON_parse stored = Some asset ->
  is_primitive asset = true ->
  AssetTransferEvents.TransferAsset JSON_parse ctx id newOwner l = (Throw TypeError, l) /\
  AssetTransferEvents.UpdateAsset JSON_parse ctx id color size owner appraisedValue l
    = (Throw TypeError, l).
Proof.
  intros Hs He Hp Hprim.
  unfold AssetTransferEvents.TransferAsset, AssetTransferEvents.UpdateAsset, bind.
  rewrite (Events_readState_stored JSON_parse ctx id l stored asset Hs He Hp).
  destruct asset; try discriminate; auto.
Qed.

Lemma Events_primitive_record_TypeError_witness :
  AssetTransferEvents.TransferAsset Reference.JSON_parse Scenario.alice "asset3" "bob"
      Scenario.ledger_mixed = (Throw TypeError, Scenario.ledger_mixed) /\
  AssetTransferEvents.UpdateAsset Reference.JSON_parse Scenario.alice "asset3" "red" 1 "bob" 2
      Scenario.ledger_mixed = (Throw TypeError, Scenario.ledger_mixed).
Proof.
  apply (Events_primitive_record_TypeError Reference.JSON_parse Scenario.alice "asset3" "bob"
           "red" "bob" 1 2 Scenario.ledger_mixed "7" (JNum 7));
    vm_compute; reflexivity.
Defined.

(** ** Properties of the Go chaincode *)

Lemma Go_savePrivateData_effect (ctx : Context) (assetKey : string) (l : Ledger) :
  exists l1 : Ledger,
    SmartContract.savePrivateData ctx assetKey l = (SmartContract.Returns None, l1) /\
    world l1 = world l /\ event l1 = event l.
Proof.
  unfold SmartContract.savePrivateData. simpl.
  destruct (String.eqb (clientMSPID ctx) (peerMSPID ctx));
    [destruct (transient ctx !! "asset_properties") |];
    eexists; (split; [reflexivity |]); split; reflexivity.
Qed.

Lemma Go_readState_result
    (json_Unmarshal : string -> SmartContract.Asset * SmartContract.error)
    (ctx : Context) (id : string) (l : Ledger) :
  SmartContract.readState json_Unmarshal ctx id l
    = (SmartContract.Returns
         (match json_Unmarshal (SmartContract.bytes_of (world l !! id)) with
          | (asset, Some err) => (None, Some err)
          | (asset, None) => (Some asset, None)
          end), l).
Proof.
  unfold SmartContract.readState, SmartContract.gbind, SmartContract.GetState. simpl.
  destruct (json_Unmarshal (SmartContract.bytes_of (world l !! id))) as [asset [err |]];
    reflexivity.
Qed.

Lemma Go_CreateAsset_guard_aux
    (json_Marshal : SmartContract.Asset -> string) (ctx : Context)
    (id color owner : string) (size appraisedValue : Z) (l : Ledger) :
  (world l !! id = None ->
     SmartContract.CreateAsset json_Marshal ctx id color size owner appraisedValue l
       = (SmartContract.Returns (Some ("the asset " ++ id ++ " already exists")), l)) /\
  (forall stored : string,
     world l !! id = Some stored ->
     exists l' : Ledger,
       SmartContract.CreateAsset json_Marshal ctx id color size owner appraisedValue l
         = (SmartContract.Returns None, l') /\
       world l' !! id
         = Some (json_Marshal (SmartContract.mkAsset id color size owner appraisedValue)) /\
       (forall key : string, key <> id -> world l' !! key = world l !! key) /\
       event l'
         = Some ("CreateAsset",
                 json_Marshal (SmartContract.mkAsset id color size owner appraisedValue))).
Proof.
  split.
  - intros Habs. unfold SmartContract.CreateAsset, SmartContract.AssetExists,
      SmartContract.gbind, SmartContract.GetState. simpl. rewrite Habs. reflexivity.
  - intros stored Hs.
    destruct (Go_savePrivateData_effect ctx id l) as (l1 & Hsave & Hw & _).
    unfold SmartContract.CreateAsset, SmartContract.AssetExists,
      SmartContract.gbind, SmartContract.GetState. simpl. rewrite Hs. simpl.
    rewrite Hsave. simpl. eexists. split; [reflexivity |]. simpl.
    split; [apply lookup_insert_eq |]. split; [| reflexivity].
    intros key Hne. rewrite lookup_insert_ne by congruence. now rewrite Hw.
Qed.

(** X15. The guard of the Go [CreateAsset] is the wrong way round.  On an
    id under which nothing is stored it returns the error "the asset ...
    already exists" and writes nothing; on an id that holds a record it goes
    on, for every caller, and replaces the record by the new asset. *)
Theorem Go_CreateAsset_guard
    (json_Marshal : SmartContract.Asset -> string) (ctx : Context)
    (id color owner : string) (size appraisedValue : Z) (l : Ledger) :
  (world l !! id = None ->
     SmartContract.CreateAsset json_Marshal ctx id color size owner appraisedValue l
       = (SmartContract.Returns (Some ("the asset " ++ id ++ " already exists")), l)) /\
  (forall stored : string,
     world l !! id = Some stored ->
     exists l' : Ledger,
       SmartContract.CreateAsset json_Marshal ctx id color size owner appraisedValue l
         = (SmartContract.Returns None, l') /\
       world l' !! id
         = Some (json_Marshal (SmartContract.mkAsset id color size owner appraisedValue)) /\
       (forall key : string, key <> id -> world l' !! key = world l !! key) /\
       event l'
         = Some ("CreateAsset",
                 json_Marshal (SmartContract.mkAsset id color size owner appraisedValue))).
Proof.
  exact (Go_CreateAsset_guard_aux json_Marshal ctx id color owner size appraisedValue l).
Qed.

Lemma Go_CreateAsset_guard_witness :
  SmartContract.CreateAsset GoReference.json_Marshal Scenario.alice "asset2" "red" 7 "alice"
      100 Scenario.ledger1
    = (SmartContract.Returns (Some "the asset asset2 already exists"), Scenario.ledger1) /\
  exists l' : Ledger,
    SmartContract.CreateAsset GoReference.json_Marshal Scenario.bob "asset1" "red" 7 "bob"
        100 Scenario.ledger1 = (SmartContract.Returns None, l') /\
    world l' !! "asset1"
      = Some (GoReference.json_Marshal (SmartContract.mkAsset "asset1" "red" 7 "bob" 100)).
Proof.
  split.
  - apply (proj1 (Go_CreateAsset_guard GoReference.json_Marshal Scenario.alice "asset2"
                    "red" "alice" 7 100 Scenario.ledger1)).
    vm_compute. reflexivity.
  - destruct (proj2 (Go_CreateAsset_guard GoReference.json_Marshal Scenario.bob "asset1"
                       "red" "bob" 7 100 Scenario.ledger1) Scenario.asset1_record)
      as (l' & Hc & Hw & _).
    + vm_compute. reflexivity.
    + exists l'. split; [exact Hc | exact Hw].
Defined.

Lemma Go_ReadAsset_frame
    (json_Unmarshal : string -> SmartContract.Asset * SmartContract.error)
    (ctx : Context) (id : string) (l : Ledger) :
  snd (SmartContract.ReadAsset json_Unmarshal ctx id l) = l.
Proof.
  unfold SmartContract.ReadAsset, SmartContract.gbind.
  rewrite Go_readState_result.
  destruct (json_Unmarshal (SmartContract.bytes_of (world l !! id))) as [asset [err |]];
    [reflexivity |].
  unfold SmartContract.addPrivateData, SmartContract.gbind, SmartContract.GetPrivateData.
  simpl. destruct (String.eqb (clientMSPID ctx) (peerMSPID ctx)); simpl; [reflexivity |].
  destruct (json_Unmarshal EmptyString) as [asset1 [err |]]; reflexivity.
Qed.

(** X16. The Go [ReadAsset] never returns an asset, and leaves the ledger
    as it was.  When the stored bytes do not decode (nothing stored among
    the cases) it returns the decoding error behind "failed to read from
    world state: "; when they decode and the caller is of the peer's
    organisation it panics on the assignment to the [nil] map; when they
    decode and the caller is of another organisation, [addPrivateData]
    hands back a [nil] slice and the error is that of decoding it. *)
Theorem Go_ReadAsset_never_returns
    (json_Unmarshal : string -> SmartContract.Asset * SmartContract.error)
    (ctx : Context) (id : string) (l : Ledger) :
  (forall err : string,
     snd (json_Unmarshal (SmartContract.bytes_of (world l !! id))) = Some err ->
     SmartContract.ReadAsset json_Unmarshal ctx id l
       = (SmartContract.Returns (None, Some ("failed to read from world state: " ++ err)), l)) /\
  (snd (json_Unmarshal (SmartContract.bytes_of (world l !! id))) = None ->
   clientMSPID ctx = peerMSPID ctx ->
     SmartContract.ReadAsset json_Unmarshal ctx id l
       = (SmartContract.Panics "assignment to entry in nil map", l)) /\
  (forall err : string,
     snd (json_Unmarshal (SmartContract.bytes_of (world l !! id))) = None ->
     clientMSPID ctx <> peerMSPID ctx ->
     snd (json_Unmarshal EmptyString) = Some err ->
     SmartContract.ReadAsset json_Unmarshal ctx id l
       = (SmartContract.Returns (None, Some err), l)).
Proof.
  unfold SmartContract.ReadAsset, SmartContract.gbind.
  rewrite Go_readState_result.
  destruct (json_Unmarshal (SmartContract.bytes_of (world l !! id))) as [asset [e |]]; simpl.
  - split; [intros err [= ->]; reflexivity |]. split; [discriminate |].
    intros err H. discriminate.
  - split; [intros err H; discriminate |].
    unfold SmartContract.addPrivateData, SmartContract.gbind, SmartContract.GetPrivateData.
    simpl. split.
    + intros _ Horg. apply String.eqb_eq in Horg. rewrite Horg. reflexivity.
    + intros err _ Horg Hnil. apply String.eqb_neq in Horg. rewrite Horg. simpl.
      unfold SmartContract.bytes_of. simpl.
      destruct (json_Unmarshal EmptyString) as [asset1 e]. simpl in Hnil. now subst e.
Qed.

Lemma Go_ReadAsset_never_returns_witness :
  SmartContract.ReadAsset GoReference.json_Unmarshal Scenario.alice "asset9" Scenario.ledger1
    = (SmartContract.Returns
         (None, Some "failed to read from world state: unexpected end of JSON input"),
       Scenario.ledger1) /\
  SmartContract.ReadAsset GoReference.json_Unmarshal Scenario.alice "asset1" Scenario.ledger1
    = (SmartContract.Panics "assignment to entry in nil map", Scenario.ledger1) /\
  SmartContract.ReadAsset GoReference.json_Unmarshal Scenario.bob "asset1" Scenario.ledger1
    = (SmartContract.Returns (None, Some "unexpected end of JSON input"), Scenario.ledger1).
Proof.
  split; [| split].
  - apply (proj1 (Go_ReadAsset_never_returns GoReference.json_Unmarshal Scenario.alice
                    "asset9" Scenario.ledger1) "unexpected end of JSON input").
    vm_compute. reflexivity.
  - apply (proj1 (proj2 (Go_ReadAsset_never_returns GoReference.json_Unmarshal
                           Scenario.alice "asset1" Scenario.ledger1)));
      vm_compute; reflexivity.
  - apply (proj2 (proj2 (Go_ReadAsset_never_returns GoReference.json_Unmarshal Scenario.bob
                           "asset1" Scenario.ledger1)) "unexpected end of JSON input").
    + vm_compute. reflexivity.
    + vm_compute. discriminate.
    + vm_compute. reflexivity.
Defined.

Lemma go_submit_keeps_absent
    (json_Marshal : SmartContract.Asset -> string)
    (json_Unmarshal : string -> SmartContract.Asset * SmartContract.error)
    (ctx : Context) (tx : go_transaction) (l : Ledger) (key : string) :
  snd (json_Unmarshal EmptyString) <> None ->
  world l !! key = None ->
  world (go_submit json_Marshal json_Unmarshal ctx tx l) !! key = None.
Proof.
  intros Hnil Habs.
  assert (Hread : forall id : string, world l !! id = None ->
            SmartContract.readState json_Unmarshal ctx id l
              = (SmartContract.Returns
                   (None, snd (json_Unmarshal EmptyString)), l) /\
            snd (json_Unmarshal EmptyString) <> None).
  { intros id Hid. rewrite Go_readState_result, Hid. simpl.
    destruct (json_Unmarshal EmptyString) as [asset [err |]]; simpl in *; [auto | congruence]. }
  destruct tx as [id color size owner v | id | id color size owner v | id | id | id newOwner];
    simpl.
  - destruct (world l !! id) as [stored |] eqn:Hs.
    + destruct (proj2 (Go_CreateAsset_guard_aux json_Marshal ctx id color owner size v l)
                  stored Hs) as (l' & -> & _ & Hother & _).
      rewrite Hother by congruence. exact Habs.
    + rewrite (proj1 (Go_CreateAsset_guard_aux json_Marshal ctx id color owner size v l) Hs).
      exact Habs.
  - now rewrite Go_ReadAsset_frame.
  - unfold SmartContract.UpdateAsset, SmartContract.gbind.
    rewrite Go_readState_result.
    destruct (json_Unmarshal (SmartContract.bytes_of (world l !! id)))
      as [asset [err |]] eqn:Hu; [exact Habs |].
    destruct (Go_savePrivateData_effect ctx id l) as (l1 & Hsave & Hw & _).
    rewrite Hsave. simpl.
    destruct (decide (key = id)) as [-> | Hne].
    + rewrite Habs in Hu. simpl in Hu. unfold SmartContract.bytes_of in Hu. simpl in Hu.
      rewrite Hu in Hnil. simpl in Hnil. congruence.
    + rewrite lookup_insert_ne by congruence. now rewrite Hw.
  - unfold SmartContract.DeleteAsset, SmartContract.gbind.
    rewrite Go_readState_result.
    destruct (json_Unmarshal (SmartContract.bytes_of (world l !! id)))
      as [asset [err |]] eqn:Hu; [exact Habs |].
    unfold SmartContract.removePrivateData. simpl.
    destruct (String.eqb (clientMSPID ctx) (peerMSPID ctx)); simpl;
      (destruct (decide (key = id)) as [-> | Hne];
       [apply lookup_delete_eq | now rewrite lookup_delete_ne by congruence]).
  - exact Habs.
  - unfold SmartContract.TransferAsset, SmartContract.gbind.
    rewrite Go_readState_result.
    destruct (json_Unmarshal (SmartContract.bytes_of (world l !! id)))
      as [asset [err |]] eqn:Hu; [exact Habs |].
    simpl. destruct (decide (key = id)) as [-> | Hne].
    + rewrite Habs in Hu. unfold SmartContract.bytes_of in Hu. simpl in Hu.
      rewrite Hu in Hnil. simpl in Hnil. congruence.
    + now rewrite lookup_insert_ne by congruence.
Qed.

(** X17. The Go chaincode never adds a key.  As decoding no bytes is an
    error, a key under which nothing is stored stays so through any
    sequence of its transactions, by any callers: [CreateAsset] refuses a
    free id, and the other operations must read the record first.  From an
    empty world state the world state stays empty. *)
Theorem Go_never_adds_a_key
    (json_Marshal : SmartContract.Asset -> string)
    (json_Unmarshal : string -> SmartContract.Asset * SmartContract.error)
    (txs : list (Context * go_transaction)) (l : Ledger) :
  snd (json_Unmarshal EmptyString) <> None ->
  (forall key : string,
     world l !! key = None ->
     world (go_submit_all json_Marshal json_Unmarshal txs l) !! key = None) /\
  (world l = ∅ -> world (go_submit_all json_Marshal json_Unmarshal txs l) = ∅).
Proof.
  intros Hnil.
  assert (Hkeys : forall (txs' : list (Context * go_transaction)) (l0 : Ledger) (key : string),
            world l0 !! key = None ->
            world (go_submit_all json_Marshal json_Unmarshal txs' l0) !! key = None).
  { induction txs' as [| [ctx tx] rest IH]; intros l0 key Habs; simpl; [exact Habs |].
    apply IH. now apply go_submit_keeps_absent. }
  split; [apply Hkeys |].
  intros Hempty. apply map_empty. intros key. apply Hkeys.
  rewrite Hempty. apply lookup_empty.
Qed.

Lemma Go_never_adds_a_key_witness :
  world (go_submit_all GoReference.json_Marshal GoReference.json_Unmarshal
           [(Scenario.alice, GoCreateAsset "asset1" "blue" 5 "alice" 300);
            (Scenario.alice, GoUpdateAsset "asset1" "red" 7 "alice" 100);
            (Scenario.bob, GoTransferAsset "asset1" "bob");
            (Scenario.alice, GoCreateAsset "asset2" "green" 1 "alice" 10)]
           Scenario.empty_ledger) = ∅.
Proof.
  assert (Hnil : snd (GoReference.json_Unmarshal EmptyString) <> None)
    by (vm_compute; discriminate).
  apply (proj2 (Go_never_adds_a_key GoReference.json_Marshal GoReference.json_Unmarshal _
                  Scenario.empty_ledger Hnil)).
  reflexivity.
Defined.

(** X18. The Go [TransferAsset] and [UpdateAsset] do not write the asset's
    JSON but the text that the JSON encoder makes of that byte slice: a
    quoted base64 string and a newline, which is also the payload of the
    event.  When those bytes do not decode into an [Asset], the record is
    lost to the chaincode: a [TransferAsset] that follows returns the
    decoding error and writes nothing, and so does every [ReadAsset]. *)
Theorem Go_TransferAsset_wraps_record
    (json_Marshal : SmartContract.Asset -> string)
    (json_Unmarshal : string -> SmartContract.Asset * SmartContract.error)
    (ctx : Context) (id newOwner color owner : string) (size appraisedValue : Z)
    (l : Ledger) (asset : SmartContract.Asset) :
  json_Unmarshal (SmartContract.bytes_of (world l !! id)) = (asset, None) ->
  let transferred :=
    SmartContract.Encode
      (json_Marshal (SmartContract.mkAsset (SmartContract.ID asset) (SmartContract.Color asset)
                       (SmartContract.Size asset) newOwner
                       (SmartContract.AppraisedValue asset))) in
  let updated :=
    SmartContract.Encode
      (json_Marshal (SmartContract.mkAsset (SmartContract.ID asset) color size owner
                       appraisedValue)) in
  (exists l' : Ledger,
     SmartContract.TransferAsset json_Marshal json_Unmarshal ctx id newOwner l
       = (SmartContract.Returns None, l') /\
     world l' = <[id := transferred]> (world l) /\
     event l' = Some ("TransferAsset", transferred) /\
     private l' = private l /\
     (forall (err : string) (caller : Context) (nextOwner : string),
        snd (json_Unmarshal transferred) = Some err ->
        SmartContract.TransferAsset json_Marshal json_Unmarshal caller id nextOwner l'
          = (SmartContract.Returns (Some err), l') /\
        SmartContract.ReadAsset json_Unmarshal caller id l'
          = (SmartContract.Returns
               (None, Some ("failed to read from world state: " ++ err)), l'))) /\
  (exists l' : Ledger,
     SmartContract.UpdateAsset json_Marshal json_Unmarshal ctx id color size owner
       appraisedValue l = (SmartContract.Returns None, l') /\
     world l' = <[id := updated]> (world l) /\
     event l' = Some ("UpdateAsset", updated)).
Proof.
  intros Hu transferred updated. split.
  - exists (mkLedger (<[id := transferred]> (world l)) (private l)
              (Some ("TransferAsset", transferred))).
    split; [| split; [| split; [| split]]].
    + unfold SmartContract.TransferAsset, SmartContract.gbind.
      rewrite Go_readState_result, Hu. reflexivity.
    + reflexivity.
    + reflexivity.
    + reflexivity.
    + intros err caller nextOwner Herr.
      assert (Hbytes : json_Unmarshal
                (SmartContract.bytes_of
                   (<[id := transferred]> (world l) !! id)) = (fst (json_Unmarshal transferred), Some err)).
      { rewrite lookup_insert_eq. simpl.
        destruct (json_Unmarshal transferred) as [a e]. simpl in *. now subst e. }
      split.
      * unfold SmartContract.TransferAsset, SmartContract.gbind.
        rewrite Go_readState_result. cbn [world]. rewrite Hbytes. reflexivity.
      * unfold SmartContract.ReadAsset, SmartContract.gbind.
        rewrite Go_readState_result. cbn [world]. rewrite Hbytes. reflexivity.
  - destruct (Go_savePrivateData_effect ctx id l) as (l1 & Hsave & Hw & _).
    eexists. split; [| split].
    + unfold SmartContract.UpdateAsset, SmartContract.gbind.
      rewrite Go_readState_result, Hu. rewrite Hsave. reflexivity.
    + simpl. now rewrite Hw.
    + reflexivity.
Qed.

Lemma Go_TransferAsset_wraps_record_witness :
  exists l' : Ledger,
    SmartContract.TransferAsset GoReference.json_Marshal GoReference.json_Unmarshal
        Scenario.bob "asset1" "bob" Scenario.ledger1 = (SmartContract.Returns None, l') /\
    SmartContract.TransferAsset GoReference.json_Marshal GoReference.json_Unmarshal
        Scenario.bob "asset1" "alice" l'
      = (SmartContract.Returns
           (Some "json: cannot unmarshal into Go value of type main.Asset"), l').
Proof.
  destruct (proj1 (Go_TransferAsset_wraps_record GoReference.json_Marshal
                     GoReference.json_Unmarshal Scenario.bob "asset1" "bob" "red" "bob" 7 100
                     Scenario.ledger1 (SmartContract.mkAsset "asset1" "blue" 5 "alice" 300)
                     ltac:(vm_compute; reflexivity)))
    as (l' & Ht & _ & _ & _ & Hlost).
  exists l'. split; [exact Ht |].
  apply (Hlost "json: cannot unmarshal into Go value of type main.Asset" Scenario.bob "alice").
  vm_compute. reflexivity.
Defined.

(** X19. The Go [DeleteAsset], on a record that decodes, succeeds for every
    caller and removes the key and nothing else from the world state.
    After it, [AssetExists] answers [false] and [CreateAsset] for that id
    returns "the asset ... already exists": a deleted asset cannot be made
    again.  A caller of the peer's organisation removes the private entry of
    the id as well, a caller of another organisation leaves the private
    store as it was. *)
Theorem Go_DeleteAsset_is_final
    (json_Marshal : SmartContract.Asset -> string)
    (json_Unmarshal : string -> SmartContract.Asset * SmartContract.error)
    (ctx caller : Context) (id color owner : string) (size appraisedValue : Z)
    (l : Ledger) (asset : SmartContract.Asset) :
  json_Unmarshal (SmartContract.bytes_of (world l !! id)) = (asset, None) ->
  exists l' : Ledger,
    SmartContract.DeleteAsset json_Marshal json_Unmarshal ctx id l
      = (SmartContract.Returns None, l') /\
    world l' = delete id (world l) /\
    event l' = Some ("DeleteAsset", SmartContract.Encode (json_Marshal asset)) /\
    SmartContract.AssetExists caller id l' = (SmartContract.Returns (false, None), l') /\
    SmartContract.CreateAsset json_Marshal caller id color size owner appraisedValue l'
      = (SmartContract.Returns (Some ("the asset " ++ id ++ " already exists")), l') /\
    (clientMSPID ctx = peerMSPID ctx ->
       private l' = delete ("_implicit_org_" ++ peerMSPID ctx, id) (private l)) /\
    (clientMSPID ctx <> peerMSPID ctx -> private l' = private l).
Proof.
  intros Hu.
  assert (Hafter : forall l' : Ledger, world l' = delete id (world l) ->
            SmartContract.AssetExists caller id l' = (SmartContract.Returns (false, None), l') /\
            SmartContract.CreateAsset json_Marshal caller id color size owner appraisedValue l'
              = (SmartContract.Returns (Some ("the asset " ++ id ++ " already exists")), l')).
  { intros l' Hw.
    assert (Habs : world l' !! id = None) by (rewrite Hw; apply lookup_delete_eq).
    split.
    - unfold SmartContract.AssetExists, SmartContract.gbind, SmartContract.GetState.
      simpl. rewrite Habs. reflexivity.
    - exact (proj1 (Go_CreateAsset_guard_aux json_Marshal caller id color owner size
                      appraisedValue l') Habs). }
  unfold SmartContract.DeleteAsset, SmartContract.gbind.
  rewrite Go_readState_result, Hu.
  unfold SmartContract.removePrivateData. simpl.
  destruct (String.eqb (clientMSPID ctx) (peerMSPID ctx)) eqn:Horg; simpl;
    (eexists; split; [reflexivity |]); simpl;
    (split; [reflexivity |]); (split; [reflexivity |]);
    (split; [apply Hafter; reflexivity |]); (split; [apply Hafter; reflexivity |]); split.
  - reflexivity.
  - intros Hne. apply String.eqb_eq in Horg. contradiction.
  - intros Heq. apply String.eqb_neq in Horg. contradiction.
  - reflexivity.
Qed.

Lemma Go_DeleteAsset_is_final_witness :
  exists l' : Ledger,
    SmartContract.DeleteAsset GoReference.json_Marshal GoReference.json_Unmarshal
        Scenario.alice "asset1" Scenario.ledger1 = (SmartContract.Returns None, l') /\
    SmartContract.CreateAsset GoReference.json_Marshal Scenario.alice "asset1" "blue" 5
        "alice" 300 l'
      = (SmartContract.Returns (Some "the asset asset1 already exists"), l') /\
    private l' = ∅.
Proof.
  destruct (Go_DeleteAsset_is_final GoReference.json_Marshal GoReference.json_Unmarshal
              Scenario.alice Scenario.alice "asset1" "blue" "alice" 5 300 Scenario.ledger1
              (SmartContract.mkAsset "asset1" "blue" 5 "alice" 300)
              ltac:(vm_compute; reflexivity))
    as (l' & Hd & _ & _ & _ & Hc & Hpriv & _).
  exists l'. split; [exact Hd |]. split; [exact Hc |].
  rewrite Hpriv by reflexivity. vm_compute. reflexivity.
Defined.

(** X20. In the events contract the private properties of an asset follow
    the transient map of callers of the peer's organisation.  When such a
    caller's [TransferAsset] or [UpdateAsset] succeeds and the transient map
    has [asset_properties], the private entry of the id is replaced by those
    bytes, whoever stored it; when the transient map has no such key, the
    private store is left as it was. *)
Theorem Events_private_properties_follow_transient
    (JSON_parse : string -> option json) (ctx : Context)
    (id newOwner color owner : string) (size appraisedValue : Z) (l l' : Ledger) :
  AssetTransferEvents.TransferAsset JSON_parse ctx id newOwner l = (Ok tt, l') \/
    AssetTransferEvents.UpdateAsset JSON_parse ctx id color size owner appraisedValue l
      = (Ok tt, l') ->
  (forall properties : string,
     clientMSPID ctx = peerMSPID ctx ->
     transient ctx !! "asset_properties" = Some properties ->
     private l'
       = <[(AssetTransferEvents.collection_of (peerMSPID ctx), id) := properties]>
           (private l)) /\
  (transient ctx !! "asset_properties" = None -> private l' = private l).
Proof.
  intros H.
  destruct (Events_savePrivateData_effect ctx id l)
    as (l1 & Hsave & _ & _ & _ & Hnone & Hsame).
  assert (Hpriv : private l' = private l1).
  { destruct H as [H | H].
    - apply Events_TransferAsset_inv in H
        as (asset & asset' & l2 & _ & _ & _ & Hsave' & ->).
      rewrite Hsave in Hsave'. now injection Hsave' as <-.
    - apply Events_UpdateAsset_inv in H
        as (asset & a1 & a2 & a3 & a4 & l2 & _ & _ & _ & _ & _ & _ & Hsave' & ->).
      rewrite Hsave in Hsave'. now injection Hsave' as <-. }
  rewrite Hpriv. split; [exact Hsame | exact Hnone].
Qed.

(** Carol transfers [asset1] with her own properties in the transient map:
    the private entry that was there is replaced. *)
Lemma Events_private_properties_follow_transient_witness :
  private (snd (AssetTransferEvents.TransferAsset Reference.JSON_parse Scenario.carol
                  "asset1" "carol" Scenario.ledger1))
    = <[("_implicit_org_Org1MSP", "asset1") := JSON_stringify Scenario.asset1_properties]>
        (private Scenario.ledger1).
Proof.
  assert (Ht : AssetTransferEvents.TransferAsset Reference.JSON_parse Scenario.carol
                 "asset1" "carol" Scenario.ledger1
               = (Ok tt, snd (AssetTransferEvents.TransferAsset Reference.JSON_parse
                                Scenario.carol "asset1" "carol" Scenario.ledger1)))
    by (vm_compute; reflexivity).
  apply (proj1 (Events_private_properties_follow_transient Reference.JSON_parse
                  Scenario.carol "asset1" "carol" "red" "carol" 1 2 Scenario.ledger1 _
                  (or_introl Ht))).
  - reflexivity.
  - vm_compute. reflexivity.
Defined.
